(** * smiLEbot: the WhatsApp booking webhook of [server.js]

    A shallow embedding of the two revisions of [server.js] found in the
    repository: the booking dialogue (revision 1, module [V1]) and the
    Google OAuth credential store with the stateless replies (revision 2,
    module [V2]), followed by the properties of the specification.

    The handlers are written in a small state and exception monad, in the
    order of the source.  Requests are handled one at a time.  Sender ids
    are strings; the dentist id that keys the credential store is the JSON
    value the state of the callback carries, of whatever type.  The
    delivery API, the OAuth client, the
    calendar listing, [JSON.parse] and the [URL] constructor are parameters
    of the handlers that call them. *)

From Stdlib Require Import QArith Qcanon Ascii String DecimalString.
From stdpp Require Import gmap list.

Local Open Scope N_scope.

(** ** JavaScript strings

    A JavaScript string is a sequence of UTF-16 code units.  String
    literals of the source are written as in [server.js] and decoded from
    the UTF-8 bytes of the Rocq literal. *)

Abbreviation jsstring := (list N).

Fixpoint utf8_decode (bs : list N) : list N :=
  match bs with
  | [] => []
  | b0 :: r0 =>
    if b0 <? 128 then b0 :: utf8_decode r0
    else match r0 with
    | [] => []
    | b1 :: r1 =>
      if b0 <? 224 then ((b0 - 192) * 64 + (b1 - 128)) :: utf8_decode r1
      else match r1 with
      | [] => []
      | b2 :: r2 =>
        if b0 <? 240
        then ((b0 - 224) * 4096 + (b1 - 128) * 64 + (b2 - 128)) :: utf8_decode r2
        else match r2 with
        | [] => []
        | b3 :: r3 =>
          ((b0 - 240) * 262144 + (b1 - 128) * 4096 + (b2 - 128) * 64 + (b3 - 128))
            :: utf8_decode r3
        end
      end
    end
  end.

(** A code point above the basic plane is a surrogate pair. *)
Definition utf16_units (cp : N) : list N :=
  if cp <? 65536 then [cp]
  else [55296 + (cp - 65536) / 1024; 56320 + (cp - 65536) mod 1024].

Definition js (s : string) : jsstring :=
  List.concat (map utf16_units (utf8_decode (map N_of_ascii (list_ascii_of_string s)))).

Definition LF : jsstring := [10].

(** [String.prototype.trim]: strips WhiteSpace and LineTerminator code
    units from both ends. *)
Definition is_white_space (c : N) : bool :=
  (c =? 9) || (c =? 10) || (c =? 11) || (c =? 12) || (c =? 13) || (c =? 32)
  || (c =? 160) || (c =? 5760) || ((8192 <=? c) && (c <=? 8202))
  || (c =? 8232) || (c =? 8233) || (c =? 8239) || (c =? 8287)
  || (c =? 12288) || (c =? 65279).

Fixpoint trim_start (s : jsstring) : jsstring :=
  match s with
  | c :: r => if is_white_space c then trim_start r else s
  | [] => []
  end.

Definition trim (s : jsstring) : jsstring :=
  rev (trim_start (rev (trim_start s))).

(** ** The regular expressions of the source

    All of them carry the [i] flag and none the [u] flag, and their
    patterns are ASCII letters and spaces.  Without [u], canonicalization
    never maps a code unit of 128 or more to one below 128, so a code unit
    matches a pattern letter exactly when it is that letter in either
    ASCII case. *)
Definition canonicalize (c : N) : N :=
  if (97 <=? c) && (c <=? 122) then c - 32 else c.

Definition unit_matches (p c : N) : bool := canonicalize p =? canonicalize c.

(** [/^pat/i.test(s)] *)
Fixpoint test_prefix (pat s : jsstring) : bool :=
  match pat, s with
  | [], _ => true
  | p :: pat', c :: s' => unit_matches p c && test_prefix pat' s'
  | _ :: _, [] => false
  end.

(** [/^pat$/i.test(s)] *)
Fixpoint test_anchored (pat s : jsstring) : bool :=
  match pat, s with
  | [], [] => true
  | p :: pat', c :: s' => unit_matches p c && test_anchored pat' s'
  | _, _ => false
  end.

(** [s.replace(/\D/g, "")]: without [u], [\D] is every code unit that is
    not one of [0]..[9]. *)
Definition is_digit (c : N) : bool := (48 <=? c) && (c <=? 57).

Definition strip_non_digits (s : jsstring) : jsstring := filter (fun c => is_digit c = true) s.

(** ** [Number(text)]: StringToNumber

    The StringNumericLiteral grammar of ECMAScript: optional white space
    around either nothing (the value 0), a signed decimal literal
    ([Infinity], digits with an optional fraction and exponent) or an
    unsigned binary, octal or hexadecimal integer literal; anything else is
    [NaN].  [Finite q] stands for the binary64 number nearest to the exact
    value [q] of the literal (round to nearest, ties to even, as Node
    does); the rounding is applied where the number is compared, in
    [strict_equals]. *)
Inductive jsnumber : Type :=
  | NaN
  | Infinity (negative : bool)
  | Finite (mv : Q).

Fixpoint digits_span (s : jsstring) : jsstring * jsstring :=
  match s with
  | c :: r => if is_digit c then let '(ds, rest) := digits_span r in (c :: ds, rest)
              else ([], s)
  | [] => ([], [])
  end.

Definition decimal_value (ds : jsstring) : Z :=
  fold_left (fun acc c => (10 * acc + (Z.of_N c - 48))%Z) ds 0%Z.

Definition radix_digit (radix : Z) (c : N) : option Z :=
  let v := if is_digit c then Some (Z.of_N c - 48)%Z
           else if (97 <=? c) && (c <=? 102) then Some (Z.of_N c - 87)%Z
           else if (65 <=? c) && (c <=? 70) then Some (Z.of_N c - 55)%Z
           else None in
  match v with
  | Some d => if (d <? radix)%Z then Some d else None
  | None => None
  end.

Fixpoint radix_value (radix acc : Z) (s : jsstring) : option Z :=
  match s with
  | [] => Some acc
  | c :: r => match radix_digit radix c with
              | Some d => radix_value radix (radix * acc + d)%Z r
              | None => None
              end
  end.

(** NonDecimalIntegerLiteral: [0b], [0o] or [0x] (either case) followed by
    at least one digit of the radix; no sign. *)
Definition non_decimal_literal (s : jsstring) : option Z :=
  match s with
  | 48 :: p :: d :: ds =>
    if (p =? 120) || (p =? 88) then radix_value 16 0 (d :: ds)
    else if (p =? 111) || (p =? 79) then radix_value 8 0 (d :: ds)
    else if (p =? 98) || (p =? 66) then radix_value 2 0 (d :: ds)
    else None
  | _ => None
  end.

(** ExponentPart (optional): [e] or [E], an optional sign, digits. *)
Definition exponent_part (s : jsstring) : option Z :=
  match s with
  | [] => Some 0%Z
  | e :: r =>
    if (e =? 101) || (e =? 69) then
      let '(neg, r') := match r with
                        | 43 :: r' => (false, r')
                        | 45 :: r' => (true, r')
                        | _ => (false, r)
                        end in
      match digits_span r' with
      | (d :: ds, []) => Some (if neg then - decimal_value (d :: ds) else decimal_value (d :: ds))%Z
      | _ => None
      end
    else None
  end.

(** StrUnsignedDecimalLiteral. *)
Definition unsigned_decimal_literal (s : jsstring) : jsnumber :=
  if decide (s = js "Infinity") then Infinity false
  else
    let '(ip, r1) := digits_span s in
    let '(fp, r2) := match r1 with
                     | 46 :: r => digits_span r
                     | _ => ([], r1)
                     end in
    match ip ++ fp with
    | [] => NaN
    | m => match exponent_part r2 with
           | Some e => Finite (inject_Z (decimal_value m)
                               * Qpower (inject_Z 10) (e - Z.of_nat (length fp)))
           | None => NaN
           end
    end.

Definition negate (n : jsnumber) : jsnumber :=
  match n with
  | NaN => NaN
  | Infinity b => Infinity (negb b)
  | Finite q => Finite (- q)
  end.

Definition str_decimal_literal (s : jsstring) : jsnumber :=
  match s with
  | 43 :: r => unsigned_decimal_literal r
  | 45 :: r => negate (unsigned_decimal_literal r)
  | _ => unsigned_decimal_literal s
  end.

Definition Number (s : jsstring) : jsnumber :=
  match trim s with
  | [] => Finite 0
  | t => match non_decimal_literal t with
         | Some n => Finite (inject_Z n)
         | None => str_decimal_literal t
         end
  end.

(** [id === chosen] for a positive integer [id] below 2^52: the exact value
    rounds to [id] exactly when it lies within half a gap of it; the gap
    below a power of two is half the gap above, and a tie goes to [id],
    whose significand is even. *)
Definition half_gap_above (k : positive) : Q :=
  Qpower (inject_Z 2) (Z.log2 (Z.pos k) - 53).

Definition half_gap_below (k : positive) : Q :=
  if (Z.pos k =? 2 ^ Z.log2 (Z.pos k))%Z
  then Qpower (inject_Z 2) (Z.log2 (Z.pos k) - 54)
  else Qpower (inject_Z 2) (Z.log2 (Z.pos k) - 53).

Definition strict_equals (id : positive) (chosen : jsnumber) : bool :=
  match chosen with
  | Finite q =>
    Qle_bool (inject_Z (Z.pos id) - half_gap_below id) q
    && Qle_bool q (inject_Z (Z.pos id) + half_gap_above id)
  | _ => false
  end.

(** ** What both revisions share: requests, deliveries, the handler monad *)

(** A value of [req.query]: absent, a string, or (from the query-string
    parser) an array or nested object. *)
Inductive query_value : Type :=
  | q_absent
  | q_string (s : jsstring)
  | q_other.

(** [value === process.env.NAME] for an environment variable that is unset
    ([None], [undefined]) or a string. *)
Definition strict_equals_env (v : query_value) (env : option jsstring) : bool :=
  match v, env with
  | q_absent, None => true
  | q_string s, Some t => bool_decide (s = t)
  | _, _ => false
  end.

Definition strict_equals_string (v : query_value) (t : jsstring) : bool :=
  match v with
  | q_string s => bool_decide (s = t)
  | _ => false
  end.

(** What [JSON.parse(state)?.dentistId] can be, and so what can be a key
    of the credential map: [null], a boolean, a finite number (the exact
    value of the double, the two zeros being one key), an infinity (a
    literal out of range, as [1e999]), a string, or an array or object,
    known by the identity of the object the parse allocates.  The [Map]
    compares keys with SameValueZero: numbers and strings by value, objects
    by identity. *)
Inductive json_value : Type :=
  | j_null
  | j_bool (b : bool)
  | j_number (q : Qc)
  | j_infinity (negative : bool)
  | j_string (s : jsstring)
  | j_object (identity : N).

#[global] Instance json_value_eq_dec : EqDecision json_value.
Proof. solve_decision. Defined.

#[global] Instance json_value_countable : Countable json_value.
Proof.
  refine (inj_countable'
            (λ v, match v with
                  | j_null => inl ()
                  | j_bool b => inr (inl b)
                  | j_number q => inr (inr (inl q))
                  | j_infinity b => inr (inr (inr (inl (inl b))))
                  | j_string s => inr (inr (inr (inl (inr s))))
                  | j_object r => inr (inr (inr (inr r)))
                  end)
            (λ x, match x with
                  | inl () => j_null
                  | inr (inl b) => j_bool b
                  | inr (inr (inl q)) => j_number q
                  | inr (inr (inr (inl (inl b)))) => j_infinity b
                  | inr (inr (inr (inl (inr s)))) => j_string s
                  | inr (inr (inr (inr r))) => j_object r
                  end) _).
  by intros [].
Defined.

(** [if (v)] for such a value. *)
Definition json_truthy (v : json_value) : bool :=
  match v with
  | j_null => false
  | j_bool b => b
  | j_number q => bool_decide (q ≠ 0%Qc)
  | j_infinity _ => true
  | j_string [] => false
  | j_string (_ :: _) => true
  | j_object _ => true
  end.

Inductive response : Type :=
  | Send (status : N) (payload : query_value)
  | SendStatus (status : N).

(** The first message of an inbound event, [entry[0].changes[0].value.messages[0]]:
    the sender ([msg.from], the patient's WhatsApp number) and what
    [msg.text?.body] holds: nothing ([undefined] or [null]), a string, or
    another JSON value (number, boolean, array, object), truthy or falsy.
    An event without a first message is [None] where a handler takes an
    [option message]. *)
Inductive text_body : Type :=
  | body_absent
  | body_string (s : jsstring)
  | body_other (truthy : bool).

Record message : Type := { from : jsstring; body : text_body }.

(** One call of the delivery API, and whether it succeeded. *)
Record delivery : Type := { to : jsstring; text : jsstring; delivered : bool }.

(** The delivery API: given the calls so far, does this one succeed? *)
Definition network : Type := list delivery → jsstring → jsstring → bool.

(** One more call, appended to the calls so far. *)
Definition attempt (net : network) (box : list delivery) (recipient content : jsstring)
  : list delivery :=
  box ++ [ {| to := recipient; text := content; delivered := net box recipient content |} ].

(** The calls made, without their outcomes. *)
Definition envelopes (box : list delivery) : list (jsstring * jsstring) :=
  map (λ d, (to d, text d)) box.

Inductive completion (A : Type) : Type :=
  | Normal (a : A)
  | Throw.
Arguments Normal {A} a.
Arguments Throw {A}.

Section HandlerMonad.
Context {St : Type}.

(** A handler computation: it reads and writes the process state and
    either completes or throws. *)
Definition M (A : Type) : Type := St → completion A * St.

Definition run {A} (m : M A) (st : St) : completion A * St := m st.

Definition throw {A} : M A := λ st, (Throw, st).

(** [try { m } catch { h }] *)
Definition try_catch {A} (m h : M A) : M A :=
  λ st, match m st with
        | (Normal a, st') => (Normal a, st')
        | (Throw, st') => h st'
        end.

Definition gets {A} (f : St → A) : M A := λ st, (Normal (f st), st).
Definition modify (f : St → St) : M () := λ st, (Normal (), f st).

(** [await p] for a promise that is fulfilled with a value or rejected. *)
Definition await {A} (settled : option A) : M A :=
  λ st, match settled with
        | Some a => (Normal a, st)
        | None => (Throw, st)
        end.
End HandlerMonad.
Arguments M : clear implicits.

#[global] Instance M_ret {St} : MRet (M St) := λ A a st, (Normal a, st).
#[global] Instance M_bind {St} : MBind (M St) :=
  λ A B f m st, match m st with
                | (Normal a, st') => f a st'
                | (Throw, st') => (Throw, st')
                end.

Definition join (sep : jsstring) (parts : list jsstring) : jsstring :=
  match parts with
  | [] => []
  | p :: ps => p ++ List.concat (map (λ q, sep ++ q) ps)
  end.

(** A template literal prints an absent property as [undefined]. *)
Definition interpolate (o : option jsstring) : jsstring := default (js "undefined") o.

(** What [/google/auth] answers: a redirect to the provider, or an error
    page. *)
Inductive auth_response : Type :=
  | Redirect (url : jsstring)
  | AuthFailed (status : N) (payload : jsstring).

(** [req.query.dentist_id || "default"] *)
Definition dentist_or_default (dentist_id : query_value) : query_value :=
  match dentist_id with
  | q_absent | q_string [] => q_string (js "default")
  | v => v
  end.

(** ** Revision 1: the booking dialogue *)
Module V1.

Inductive Step : Type := idle | get_name | get_phone | offer_slots | confirm.

#[global] Instance Step_eq_dec : EqDecision Step.
Proof. solve_decision. Defined.

(** [session.data]: a bag of optional fields. *)
Record Data : Type :=
  { name : option jsstring; phone : option jsstring; slot : option jsstring }.

Record Session : Type := { step : Step; data : Data }.

Definition empty_data : Data := {| name := None; phone := None; slot := None |}.

(** [{ step: "idle", data: {} }] *)
Definition fresh : Session := {| step := idle; data := empty_data |}.

Definition set_step (v : Step) (s : Session) : Session :=
  {| step := v; data := data s |}.
Definition set_name (v : jsstring) (s : Session) : Session :=
  {| step := step s;
     data := {| name := Some v; phone := phone (data s); slot := slot (data s) |} |}.
Definition set_phone (v : jsstring) (s : Session) : Session :=
  {| step := step s;
     data := {| name := name (data s); phone := Some v; slot := slot (data s) |} |}.
Definition set_slot (v : jsstring) (s : Session) : Session :=
  {| step := step s;
     data := {| name := name (data s); phone := phone (data s); slot := Some v |} |}.

Record Slot : Type := { slot_id : positive; when : jsstring }.

Definition SLOTS : list Slot :=
  [ {| slot_id := 1; when := js "Hoje 16:00" |};
    {| slot_id := 2; when := js "Amanhã 10:30" |};
    {| slot_id := 3; when := js "Amanhã 15:00" |} ].

(** [SLOTS.find(s => s.id === chosen)] *)
Definition find_slot (chosen : jsnumber) : option Slot :=
  List.find (λ s, strict_equals (slot_id s) chosen) SLOTS.

(** [SLOTS.map(s => `${s.id}) ${s.when}`).join("\n")] *)
Definition slot_line (s : Slot) : jsstring :=
  js (NilZero.string_of_uint (Pos.to_uint (slot_id s))) ++ js ") " ++ when s.

Definition slot_list : jsstring := join LF (map slot_line SLOTS).

(** The process state: the [sessions] map, and the calls made to the
    delivery API.  Every session object is created for one key and
    reached through that key only, so a map of values stands for the map
    of objects, and an assignment to a field of [session] is an update
    of the entry. *)
Record server : Type := { sessions : gmap jsstring Session; outbox : list delivery }.

Definition sessions_has (k : jsstring) : M server bool :=
  gets (λ st, bool_decide (is_Some (sessions st !! k))).

Definition sessions_set (k : jsstring) (v : Session) : M server () :=
  modify (λ st, {| sessions := <[k := v]> (sessions st); outbox := outbox st |}).

(** [sessions.get(k)]; reading a field of an absent session throws. *)
Definition sessions_get (k : jsstring) : M server Session :=
  λ st, match sessions st !! k with
        | Some s => (Normal s, st)
        | None => (Throw, st)
        end.

(** [session.field = v] on the object stored under [k]. *)
Definition assign (k : jsstring) (f : Session → Session) : M server () :=
  modify (λ st, {| sessions := alter f k (sessions st); outbox := outbox st |}).

(** [(msg.text?.body || "").trim()]: a truthy value that is no string has
    no [trim] method. *)
Definition inbound_text (b : text_body) : M server jsstring :=
  match b with
  | body_absent => mret (trim [])
  | body_string s => mret (trim s)
  | body_other false => mret (trim [])
  | body_other true => throw
  end.

Section Handlers.
(** [process.env.DENTIST_NUMBER] and [process.env.META_VERIFY_TOKEN] *)
Variable DENTIST : option jsstring.
Variable META_VERIFY_TOKEN : option jsstring.
Variable axios_post : network.

(** [sendText]: a rejected API call (an [Error], as axios raises them) is
    caught and logged; nothing is thrown to the caller. *)
Definition sendText (recipient content : jsstring) : M server () :=
  modify (λ st,
    {| sessions := sessions st;
       outbox := attempt axios_post (outbox st) recipient content |}).

(** [if (DENTIST) await sendText(DENTIST, content)] *)
Definition notify_dentist (content : jsstring) : M server () :=
  match DENTIST with
  | Some (c :: d) => sendText (c :: d) content
  | _ => mret ()
  end.

(** [session.data?.name || from] *)
Definition name_or (s : Session) (sender : jsstring) : jsstring :=
  match name (data s) with
  | Some (c :: n) => c :: n
  | _ => sender
  end.

(** [app.get("/webhook")] *)
Definition webhook_get (mode token challenge : query_value) : response :=
  if strict_equals_string mode (js "subscribe") && strict_equals_env token META_VERIFY_TOKEN
  then Send 200 challenge
  else SendStatus 403.

(** [app.get("/google/callback")]: the tokens of the exchange, whatever
    they hold, are dropped; saving them is left as a TODO. *)
Definition google_callback {Tokens : Type} (getToken : query_value → option Tokens)
    (code state : query_value) : M server response :=
  try_catch
    (await (getToken code);;
     mret (Send 200 (q_string (js "Conta Google conectada com sucesso!"))))
    (mret (Send 500 (q_string (js "Falha ao concluir OAuth.")))).

(** [app.post("/webhook")] *)
Definition webhook_post (req : option message) : M server N :=
  try_catch
    (match req with
     | None => mret 200
     | Some msg =>
       let sender := from msg in
       text ← inbound_text (body msg);
       has ← sessions_has sender;
       (if has : bool then mret () else sessions_set sender fresh);;
       session ← sessions_get sender;
       if test_anchored (js "cancelar") text then
         sendText sender
           (js "Sem problemas! Consulta cancelada. Se precisar, digite *agendar* novamente.");;
         notify_dentist
           (js "⚠️ Paciente " ++ name_or session sender ++ js " cancelou a consulta.");;
         sessions_set sender fresh;;
         mret 200
       else if test_anchored (js "agendar") text || bool_decide (step session = idle) then
         assign sender (set_step get_name);;
         sendText sender
           (js "Vamos agendar sua consulta 🦷" ++ LF ++ js "Qual é o seu *nome completo*?");;
         mret 200
       else if bool_decide (step session = get_name) then
         assign sender (set_name text);;
         assign sender (set_step get_phone);;
         sendText sender (js "Pra continuar, me informe seu *telefone* (com DDD).");;
         mret 200
       else if bool_decide (step session = get_phone) then
         assign sender (set_phone (strip_non_digits text));;
         assign sender (set_step offer_slots);;
         sendText sender
           (js "Obrigado, " ++ interpolate (name (data session))
            ++ js "! Temos estes horários:" ++ LF ++ slot_list ++ LF ++ LF
            ++ js "Responda com *1*, *2* ou *3*.");;
         mret 200
       else if bool_decide (step session = offer_slots) then
         match find_slot (Number text) with
         | None =>
           sendText sender
             (js "Não entendi. Responda *1*, *2* ou *3* para escolher um horário.");;
           mret 200
         | Some chosen =>
           assign sender (set_slot (when chosen));;
           assign sender (set_step confirm);;
           sendText sender
             (js "Confirmar consulta para *" ++ when chosen ++ js "*?" ++ LF
              ++ js "Responda *confirmo* ou *cancelar*.");;
           mret 200
         end
       else if bool_decide (step session = confirm) && test_anchored (js "confirmo") text then
         sendText sender
           (js "✅ Consulta confirmada para *" ++ interpolate (slot (data session))
            ++ js "*." ++ LF ++ js "Até lá!");;
         notify_dentist
           (js "📬 Nova consulta confirmada:" ++ LF
            ++ js "Paciente: " ++ interpolate (name (data session)) ++ LF
            ++ js "Telefone: " ++ interpolate (phone (data session)) ++ LF
            ++ js "Horário: " ++ interpolate (slot (data session)));;
         sessions_set sender fresh;;
         mret 200
       else
         sendText sender
           (js "Não entendi. Digite *agendar* para começar ou *cancelar* para encerrar.");;
         mret 200
     end)
    (mret 200).
End Handlers.

(** [app.get("/google/auth")]: the dentist id itself is the [state]; what
    [generateAuthUrl] throws is not caught here. *)
Definition google_auth (generateAuthUrl : query_value → option jsstring)
    (dentist_id : query_value) : M server auth_response :=
  url ← await (generateAuthUrl (dentist_or_default dentist_id));
  mret (Redirect url).

End V1.

(** ** Revision 2: the credential store and the stateless replies *)
Module V2.

(** The [tokens] object of a completed exchange. *)
Record Tokens : Type :=
  { access_token : option jsstring;
    refresh_token : option jsstring;
    expiry_date : option N }.

(** [googleTokensStore] (key: the dentist id, whatever value the callback
    reads from the state) and the calls made to the delivery API. *)
Record server : Type :=
  { googleTokensStore : gmap json_value Tokens; outbox : list delivery }.

Definition googleTokensStore_set (k : json_value) (v : Tokens) : M server () :=
  modify (λ st, {| googleTokensStore := <[k := v]> (googleTokensStore st);
                   outbox := outbox st |}).

(** What the handler reads of a POST request besides the event. *)
Record request : Type :=
  { protocol : jsstring; host : option jsstring; event : option message }.

Definition truthy (v : query_value) : bool :=
  match v with
  | q_absent | q_string [] => false
  | _ => true
  end.

(** [msg.text?.body?.trim() || ""]: a value that is neither nullish nor a
    string has no [trim] method. *)
Definition inbound_text (b : text_body) : M server jsstring :=
  match b with
  | body_absent => mret []
  | body_string s => mret (trim s)
  | body_other _ => throw
  end.

Section Handlers.
Variable META_VERIFY_TOKEN : option jsstring.
Variable axios_post : network.
(** [oauth2Client.getToken({ code, redirect_uri })]: the tokens, or
    [None] when the exchange is rejected. *)
Variable getToken : query_value → option Tokens.
(** [calendar.calendarList.list()] with these credentials: does the
    listing succeed? *)
Variable calendarList_list : Tokens → bool.
(** [JSON.parse(state)?.dentistId]: [None] when the parse throws or the
    parsed value has no such property.  An array or object is a new one at
    every parse: the oracle of a call names it by an identity that no key
    of the store has. *)
Variable parsed_dentistId : query_value → option json_value.
(** [new URL(href)] with [dentist_id=default] set, printed; [None] when
    the constructor throws. *)
Variable auth_url : jsstring → option jsstring.

Definition sendText (recipient content : jsstring) : M server () :=
  modify (λ st,
    {| googleTokensStore := googleTokensStore st;
       outbox := attempt axios_post (outbox st) recipient content |}).

(** The dentist id carried by [state]: the parsed [dentistId] itself when
    it is truthy, of whatever type; [default] otherwise. *)
Definition callback_dentistId (state : query_value) : json_value :=
  match (if truthy state then parsed_dentistId state else None) with
  | Some v => if json_truthy v then v else j_string (js "default")
  | None => j_string (js "default")
  end.

(** [app.get("/google/callback")] *)
Definition google_callback (code state : query_value) : M server response :=
  if negb (truthy code)
  then mret (Send 400 (q_string (js "Código de autorização ausente.")))
  else
    let dentistId := callback_dentistId state in
    try_catch
      (tokens ← await (getToken code);
       googleTokensStore_set dentistId tokens;;
       await (if calendarList_list tokens then Some () else None);;
       mret (Send 200 (q_string
         (js "OAuth concluído com sucesso! Você já pode fechar esta janela. ✅"))))
      (mret (Send 500 (q_string (js "Falha ao concluir OAuth.")))).

(** [app.get("/webhook")]; nothing in its [try] block throws. *)
Definition webhook_get (mode token challenge : query_value) : response :=
  if strict_equals_string mode (js "subscribe") && strict_equals_env token META_VERIFY_TOKEN
  then Send 200 challenge
  else SendStatus 403.

(** [app.post("/webhook")] *)
Definition webhook_post (req : request) : M server N :=
  try_catch
    (match event req with
     | None => mret 200
     | Some msg =>
       let sender := from msg in
       text ← inbound_text (body msg);
       if test_prefix (js "conectar") text
          || test_prefix (js "conectar google") text
          || test_prefix (js "link google") text then
         url ← await (auth_url (protocol req ++ js "://" ++ interpolate (host req)
                                 ++ js "/google/auth"));
         sendText sender (js "Para conectar seu Google Agenda, acesse: " ++ url);;
         mret 200
       else if test_prefix (js "agendar") text then
         sendText sender (js "Ótimo! Me envie: nome, telefone e unidade/endereço. 😃");;
         mret 200
       else
         sendText sender
           (js "Olá! Sou a secretária virtual 🦷 Posso agendar, confirmar ou cancelar consultas."
            ++ LF ++ LF ++ js "Dicas:" ++ LF
            ++ js "• Envie 'agendar' para começar o atendimento." ++ LF
            ++ js "• Envie 'conectar google' para vincular seu Google Agenda.");;
         mret 200
     end)
    (mret 500).
End Handlers.

(** The [state] of [/google/auth]: [JSON.stringify({ dentistId })]. *)
Definition auth_state (JSON_stringify : query_value → jsstring)
    (dentist_id : query_value) : jsstring :=
  JSON_stringify (dentist_or_default dentist_id).

(** [app.get("/google/auth")] *)
Definition google_auth (JSON_stringify : query_value → jsstring)
    (generateAuthUrl : jsstring → option jsstring)
    (dentist_id : query_value) : M server auth_response :=
  try_catch
    (url ← await (generateAuthUrl (auth_state JSON_stringify dentist_id));
     mret (Redirect url))
    (mret (AuthFailed 500 (js "Falha ao iniciar OAuth."))).

End V2.

(** ** Vocabulary of the statements *)

(** The session a turn works on: the stored one, or the fresh one the
    handler creates for an unknown sender. *)
Definition session_of (st : V1.server) (sender : jsstring) : V1.Session :=
  default V1.fresh (V1.sessions st !! sender).

(** An inbound text message. *)
Definition inbound (sender raw : jsstring) : option message :=
  Some {| from := sender; body := body_string raw |}.

(** Equal up to ASCII case. *)
Definition equal_ignoring_case (a b : jsstring) : Prop :=
  map canonicalize a = map canonicalize b.

(** The calls [if (DENTIST) await sendText(DENTIST, content)] leaves. *)
Definition notified (DENTIST : option jsstring) (net : network) (box : list delivery)
    (content : jsstring) : list delivery :=
  match DENTIST with
  | Some (c :: d) => attempt net box (c :: d) content
  | _ => box
  end.

(** What the configured notification recipient is sent. *)
Definition to_dentist (DENTIST : option jsstring) (content : jsstring)
  : list (jsstring * jsstring) :=
  match DENTIST with
  | Some (c :: d) => [(c :: d, content)]
  | _ => []
  end.

(** The replies of the dialogue. *)
Definition cancel_confirmation : jsstring :=
  js "Sem problemas! Consulta cancelada. Se precisar, digite *agendar* novamente.".
Definition cancel_alert (who : jsstring) : jsstring :=
  js "⚠️ Paciente " ++ who ++ js " cancelou a consulta.".
Definition name_prompt : jsstring :=
  js "Vamos agendar sua consulta 🦷" ++ LF ++ js "Qual é o seu *nome completo*?".
Definition phone_prompt : jsstring :=
  js "Pra continuar, me informe seu *telefone* (com DDD).".
Definition slot_offer (s : V1.Session) : jsstring :=
  js "Obrigado, " ++ interpolate (V1.name (V1.data s))
  ++ js "! Temos estes horários:" ++ LF ++ V1.slot_list ++ LF ++ LF
  ++ js "Responda com *1*, *2* ou *3*.".
Definition choose_valid_prompt : jsstring :=
  js "Não entendi. Responda *1*, *2* ou *3* para escolher um horário.".
Definition confirm_prompt (chosen : V1.Slot) : jsstring :=
  js "Confirmar consulta para *" ++ V1.when chosen ++ js "*?" ++ LF
  ++ js "Responda *confirmo* ou *cancelar*.".
Definition booking_confirmation (s : V1.Session) : jsstring :=
  js "✅ Consulta confirmada para *" ++ interpolate (V1.slot (V1.data s))
  ++ js "*." ++ LF ++ js "Até lá!".
Definition booking_notice (s : V1.Session) : jsstring :=
  js "📬 Nova consulta confirmada:" ++ LF
  ++ js "Paciente: " ++ interpolate (V1.name (V1.data s)) ++ LF
  ++ js "Telefone: " ++ interpolate (V1.phone (V1.data s)) ++ LF
  ++ js "Horário: " ++ interpolate (V1.slot (V1.data s)).
Definition fallback_prompt : jsstring :=
  js "Não entendi. Digite *agendar* para começar ou *cancelar* para encerrar.".
Definition schedule_reply : jsstring :=
  js "Ótimo! Me envie: nome, telefone e unidade/endereço. 😃".

(** The booking state machine as a relation: the session before, the
    trimmed text, the session after and the replies, one constructor per
    branch of the handler, in the order the handler tries them.  That
    every turn of the handler is one of these is [text_transition]. *)
Inductive transition (DENTIST : option jsstring) (sender text : jsstring) (s : V1.Session)
  : V1.Session → list (jsstring * jsstring) → Prop :=
  | t_cancel :
      test_anchored (js "cancelar") text = true →
      transition DENTIST sender text s V1.fresh
        ((sender, cancel_confirmation)
           :: to_dentist DENTIST (cancel_alert (V1.name_or s sender)))
  | t_schedule :
      test_anchored (js "cancelar") text = false →
      test_anchored (js "agendar") text = true ∨ V1.step s = V1.idle →
      transition DENTIST sender text s (V1.set_step V1.get_name s) [(sender, name_prompt)]
  | t_get_name :
      test_anchored (js "cancelar") text = false →
      test_anchored (js "agendar") text = false →
      V1.step s = V1.get_name →
      transition DENTIST sender text s
        (V1.set_step V1.get_phone (V1.set_name text s)) [(sender, phone_prompt)]
  | t_get_phone :
      test_anchored (js "cancelar") text = false →
      test_anchored (js "agendar") text = false →
      V1.step s = V1.get_phone →
      transition DENTIST sender text s
        (V1.set_step V1.offer_slots (V1.set_phone (strip_non_digits text) s))
        [(sender, slot_offer s)]
  | t_reject :
      test_anchored (js "cancelar") text = false →
      test_anchored (js "agendar") text = false →
      V1.step s = V1.offer_slots →
      V1.find_slot (Number text) = None →
      transition DENTIST sender text s s [(sender, choose_valid_prompt)]
  | t_accept chosen :
      test_anchored (js "cancelar") text = false →
      test_anchored (js "agendar") text = false →
      V1.step s = V1.offer_slots →
      V1.find_slot (Number text) = Some chosen →
      transition DENTIST sender text s
        (V1.set_step V1.confirm (V1.set_slot (V1.when chosen) s))
        [(sender, confirm_prompt chosen)]
  | t_confirm :
      test_anchored (js "cancelar") text = false →
      test_anchored (js "agendar") text = false →
      V1.step s = V1.confirm →
      test_anchored (js "confirmo") text = true →
      transition DENTIST sender text s V1.fresh
        ((sender, booking_confirmation s) :: to_dentist DENTIST (booking_notice s))
  | t_fallback :
      test_anchored (js "cancelar") text = false →
      test_anchored (js "agendar") text = false →
      V1.step s = V1.confirm →
      test_anchored (js "confirmo") text = false →
      transition DENTIST sender text s s [(sender, fallback_prompt)].

(** What the handler makes of a request: the sender and the trimmed text,
    unless there is no message or reading the text throws. *)
Definition reading (req : option message) : option (jsstring * jsstring) :=
  match req with
  | None => None
  | Some msg =>
    match body msg with
    | body_absent | body_other false => Some (from msg, trim [])
    | body_string raw => Some (from msg, trim raw)
    | body_other true => None
    end
  end.

(** The server after one request, and after a sequence of them. *)
Definition after (DENTIST : option jsstring) (net : network) (st : V1.server)
    (req : option message) : V1.server :=
  (run (V1.webhook_post DENTIST net req) st).2.

Definition status_of (DENTIST : option jsstring) (net : network) (st : V1.server)
    (req : option message) : completion N :=
  (run (V1.webhook_post DENTIST net req) st).1.

Definition deliver_all (DENTIST : option jsstring) (net : network)
    (reqs : list (option message)) (st : V1.server) : V1.server :=
  fold_left (after DENTIST net) reqs st.

(** The process at start: no session, nothing sent. *)
Definition boot : V1.server := {| V1.sessions := ∅; V1.outbox := [] |}.

(** The step gating of the specification: the phone is present only past
    [get_phone], the slot only past [offer_slots], and an idle session has
    no data. *)
Definition step_gated (s : V1.Session) : Prop :=
  (is_Some (V1.phone (V1.data s)) → V1.step s = V1.offer_slots ∨ V1.step s = V1.confirm)
  ∧ (is_Some (V1.slot (V1.data s)) → V1.step s = V1.confirm)
  ∧ (V1.step s = V1.idle → V1.data s = V1.empty_data).

(** What the handler maintains instead: the fields are filled in the order
    of the dialogue and are present once their step is passed. *)
Definition filled_in_order (s : V1.Session) : Prop :=
  (V1.step s = V1.idle → V1.data s = V1.empty_data)
  ∧ (is_Some (V1.slot (V1.data s)) → is_Some (V1.phone (V1.data s)))
  ∧ (is_Some (V1.phone (V1.data s)) → is_Some (V1.name (V1.data s)))
  ∧ (V1.step s = V1.get_phone → is_Some (V1.name (V1.data s)))
  ∧ (V1.step s = V1.offer_slots ∨ V1.step s = V1.confirm → is_Some (V1.phone (V1.data s)))
  ∧ (V1.step s = V1.confirm → is_Some (V1.slot (V1.data s))).

(** A restart: the schedule command sent to a session that is under way. *)
Definition restarts (st : V1.server) (req : option message) : Prop :=
  ∃ sender text, reading req = Some (sender, text)
                 ∧ equal_ignoring_case text (js "agendar")
                 ∧ V1.step (session_of st sender) ≠ V1.idle.

(** The handler's first reply of this turn goes to the sender and is
    [content]. *)
Definition answers (DENTIST : option jsstring) (net : network) (st : V1.server)
    (sender raw content : jsstring) : Prop :=
  ∃ rest, envelopes (V1.outbox (after DENTIST net st (inbound sender raw)))
          = envelopes (V1.outbox st) ++ (sender, content) :: rest.

(** Sample inputs: a network on which every delivery fails, a patient, a
    dentist, and sessions at each step of the dialogue. *)
Definition offline : network := λ _ _ _, false.
Definition patient : jsstring := js "5511912345678".
Definition dentist : jsstring := js "5511987654321".

Definition at_get_name : V1.server :=
  deliver_all None offline [inbound patient (js "oi")] boot.
Definition at_get_phone : V1.server :=
  deliver_all None offline [inbound patient (js "Maria Silva")] at_get_name.
Definition at_offer_slots : V1.server :=
  deliver_all None offline [inbound patient (js "(11) 91234-5678")] at_get_phone.
Definition at_confirm : V1.server :=
  deliver_all None offline [inbound patient (js "2")] at_offer_slots.

(** Revision 2: its replies, its trigger for the calendar link, the
    process at start and a sample request. *)
Definition connect_reply (url : jsstring) : jsstring :=
  js "Para conectar seu Google Agenda, acesse: " ++ url.
Definition default_reply : jsstring :=
  js "Olá! Sou a secretária virtual 🦷 Posso agendar, confirmar ou cancelar consultas."
  ++ LF ++ LF ++ js "Dicas:" ++ LF
  ++ js "• Envie 'agendar' para começar o atendimento." ++ LF
  ++ js "• Envie 'conectar google' para vincular seu Google Agenda.".

Definition wants_connect (text : jsstring) : bool :=
  test_prefix (js "conectar") text
  || test_prefix (js "conectar google") text
  || test_prefix (js "link google") text.

Definition auth_href (req : V2.request) : jsstring :=
  V2.protocol req ++ js "://" ++ interpolate (V2.host req) ++ js "/google/auth".

Definition boot2 : V2.server := {| V2.googleTokensStore := ∅; V2.outbox := [] |}.

Definition posted (ev : option message) : V2.request :=
  {| V2.protocol := js "https"; V2.host := Some (js "smilebot.onrender.com"); V2.event := ev |}.

(** A [URL] constructor that accepts every href and prints it with the
    query. *)
Definition any_url : jsstring → option jsstring :=
  λ href, Some (href ++ js "?dentist_id=default").

(** Revision 2: does processing this request throw?  Reading a text body
    that is not a string does, and so does a failing [URL] constructor
    when the calendar link is asked for. *)
Definition throws (auth_url : jsstring → option jsstring) (req : V2.request) : bool :=
  match V2.event req with
  | None => false
  | Some msg =>
    match body msg with
    | body_other _ => true
    | body_absent => false
    | body_string raw =>
      wants_connect (trim raw)
      && match auth_url (auth_href req) with Some _ => false | None => true end
    end
  end.

(** The authorization callback as a transition of the credential store. *)
Definition callback_response (getToken : query_value → option V2.Tokens)
    (calendarList_list : V2.Tokens → bool) (parsed_dentistId : query_value → option json_value)
    (st : V2.server) (code state : query_value) : completion response :=
  (run (V2.google_callback getToken calendarList_list parsed_dentistId code state) st).1.

Definition after_callback (getToken : query_value → option V2.Tokens)
    (calendarList_list : V2.Tokens → bool) (parsed_dentistId : query_value → option json_value)
    (st : V2.server) (code state : query_value) : V2.server :=
  (run (V2.google_callback getToken calendarList_list parsed_dentistId code state) st).2.

(** Sample exchanges: two codes with their tokens, a listing that fails,
    and a [state] without a dentist id. *)
Definition first_tokens : V2.Tokens :=
  {| V2.access_token := Some (js "ya29.first");
     V2.refresh_token := Some (js "1//refresh");
     V2.expiry_date := Some 1700000000000 |}.
Definition second_tokens : V2.Tokens :=
  {| V2.access_token := Some (js "ya29.second");
     V2.refresh_token := None;
     V2.expiry_date := Some 1700003600000 |}.
Definition exchange : query_value → option V2.Tokens :=
  λ code, if strict_equals_string code (js "code-1") then Some first_tokens
          else if strict_equals_string code (js "code-2") then Some second_tokens
          else None.
Definition listing_fails : V2.Tokens → bool := λ _, false.
Definition no_dentist : query_value → option json_value := λ _, None.

(** A run without restart. *)
Fixpoint restart_free (DENTIST : option jsstring) (net : network)
    (reqs : list (option message)) (st : V1.server) : Prop :=
  match reqs with
  | [] => True
  | req :: reqs' =>
    ¬ restarts st req ∧ restart_free DENTIST net reqs' (after DENTIST net st req)
  end.

(** ** Vocabulary of the further properties *)

(** The moves of the dialogue: a session may stay where it is, be reset,
    be (re)started, or advance by one step. *)
Definition step_allowed (a b : V1.Step) : Prop :=
  b = a ∨ b = V1.idle ∨ b = V1.get_name
  ∨ (a = V1.get_name ∧ b = V1.get_phone)
  ∨ (a = V1.get_phone ∧ b = V1.offer_slots)
  ∨ (a = V1.offer_slots ∧ b = V1.confirm).

(** What the handler stores: a name that is no command, a phone of digits,
    a slot label of the catalog. *)
Definition data_well_formed (s : V1.Session) : Prop :=
  (∀ n, V1.name (V1.data s) = Some n →
        test_anchored (js "cancelar") n = false ∧ test_anchored (js "agendar") n = false)
  ∧ (∀ p, V1.phone (V1.data s) = Some p → Forall (λ c, is_digit c = true) p)
  ∧ (∀ l, V1.slot (V1.data s) = Some l → ∃ x, x ∈ V1.SLOTS ∧ l = V1.when x).

(** The id of a slot as the offer prints it. *)
Definition printed_id (x : V1.Slot) : jsstring :=
  js (NilZero.string_of_uint (Pos.to_uint (V1.slot_id x))).

(** Revision 2: the text a request is read as (unless reading throws),
    and the credential store after a callback as a function of the store
    before. *)
Definition reading2 (req : V2.request) : option (jsstring * jsstring) :=
  match V2.event req with
  | None => None
  | Some msg =>
    match body msg with
    | body_absent => Some (from msg, [])
    | body_string raw => Some (from msg, trim raw)
    | body_other _ => None
    end
  end.

(** Sample oracles of [JSON.stringify({ dentistId })] and of reading the
    [dentistId] back: a brace before the id stands for the object. *)
Definition stringify_sample : query_value → jsstring :=
  λ v, match v with
       | q_string d => 123 :: d
       | _ => [123]
       end.
Definition parse_sample : query_value → option json_value :=
  λ v, match v with
       | q_string (123 :: d) => Some (j_string d)
       | _ => None
       end.

(** A state whose dentist id is the number 5, as a caller of the callback
    can write it (34 is the double quote), and the oracle that reads it. *)
Definition numbered_state : jsstring :=
  js "{" ++ [34] ++ js "dentistId" ++ [34] ++ js ":5}".
Definition parse_numbered : query_value → option json_value :=
  λ v, if strict_equals_string v numbered_state then Some (j_number (Q2Qc 5)) else None.

(** * Properties *)

(** ** Strings and numbers on samples *)

Example js_ascii : js "agendar" = [97; 103; 101; 110; 100; 97; 114].
Proof. reflexivity. Qed.

Example js_tooth : js "Amanhã 🦷" = [65; 109; 97; 110; 104; 227; 32; 55358; 56759].
Proof. vm_compute. reflexivity. Qed.

Example trim_example : trim (js "  Maria Silva  ") = js "Maria Silva".
Proof. vm_compute. reflexivity. Qed.

Example strip_example : strip_non_digits (js "(11) 91234-5678") = js "11912345678".
Proof. vm_compute. reflexivity. Qed.

Example Number_2_0 : strict_equals 2 (Number (js "2.0")) = true.
Proof. vm_compute. reflexivity. Qed.

Example Number_0x2 : strict_equals 2 (Number (js "0x2")) = true.
Proof. vm_compute. reflexivity. Qed.

Example Number_near_two : strict_equals 2 (Number (js "1.9999999999999999")) = true.
Proof. vm_compute. reflexivity. Qed.

Example Number_word : Number (js "cancelar") = NaN.
Proof. vm_compute. reflexivity. Qed.

Example Number_dot : Number (js ".") = NaN.
Proof. vm_compute. reflexivity. Qed.
Example Number_2e0 : strict_equals 2 (Number (js "2e0")) = true.
Proof. vm_compute. reflexivity. Qed.
Example Number_empty : Number [] = Finite 0.
Proof. reflexivity. Qed.
Example Number_not_two : strict_equals 2 (Number (js "1.999999999999999")) = false.
Proof. vm_compute. reflexivity. Qed.
Example Number_signed_hex : Number (js "-0x2") = NaN.
Proof. vm_compute. reflexivity. Qed.
Example Number_frac : Number (js " .5e1 ") = Finite (5 * (10 ^ 0))%Q.
Proof. vm_compute. reflexivity. Qed.

(** ** Strings and regular expressions *)

Lemma test_anchored_spec pat s :
  test_anchored pat s = true ↔ equal_ignoring_case s pat.
Proof.
  unfold equal_ignoring_case. revert s.
  induction pat as [|p pat IH]; intros [|c s]; simpl; try (split; congruence).
  unfold unit_matches. rewrite andb_true_iff, IH, N.eqb_eq. split.
  - intros [-> ->]. reflexivity.
  - intros H. injection H as -> ->. done.
Qed.

Lemma test_prefix_spec pat s :
  test_prefix pat s = true ↔ equal_ignoring_case (take (length pat) s) pat.
Proof.
  unfold equal_ignoring_case. revert s.
  induction pat as [|p pat IH]; intros s; simpl.
  - done.
  - destruct s as [|c s]; simpl; [split; congruence|].
    unfold unit_matches. rewrite andb_true_iff, IH, N.eqb_eq. split.
    + intros [-> ->]. reflexivity.
    + intros H. injection H as -> ->. done.
Qed.

Lemma envelopes_attempt net box r c :
  envelopes (attempt net box r c) = envelopes box ++ [(r, c)].
Proof. unfold envelopes, attempt. by rewrite map_app. Qed.

Lemma envelopes_notified DENTIST net box c :
  envelopes (notified DENTIST net box c) = envelopes box ++ to_dentist DENTIST c.
Proof.
  unfold notified, to_dentist. destruct DENTIST as [[|x d]|]; rewrite ?envelopes_attempt, ?app_nil_r; done.
Qed.

(** ** The turns of the dialogue, rule by rule *)

Lemma alter_present {A} (f : A → A) (k : jsstring) (m : gmap jsstring A) (x : A) :
  m !! k = Some x → alter f k m = <[k := f x]> m.
Proof.
  intros H. apply map_eq. intros j. rewrite lookup_alter, lookup_insert.
  repeat case_decide; subst; try congruence; by rewrite ?H.
Qed.

Ltac unfold_turn :=
  unfold cancel_confirmation, cancel_alert, name_prompt, phone_prompt, slot_offer,
    choose_valid_prompt, confirm_prompt, booking_confirmation, booking_notice,
    fallback_prompt;
  unfold V1.webhook_post, inbound; unfold session_of in *;
  repeat (progress (
    unfold run, try_catch, mbind, M_bind, mret, M_ret,
      V1.sessions_has, gets, V1.sessions_set, V1.assign, modify, V1.sessions_get,
      V1.sendText, V1.notify_dentist, throw;
    cbn [from body V1.inbound_text V1.sessions V1.outbox])).

Ltac known_sender st sender :=
  let E := fresh "E" in
  destruct (V1.sessions st !! sender) eqn:E;
  [ rewrite (bool_decide_eq_true_2 (is_Some _)) by eauto
  | rewrite (bool_decide_eq_false_2 (is_Some _)) by (intros [? ?]; congruence) ];
  cbn [V1.sessions V1.outbox default from_option id] in *; rewrite ?lookup_insert_eq, ?E;
  cbn [V1.sessions V1.outbox default from_option id V1.step V1.data V1.fresh] in *.

Ltac decide_step :=
  repeat match goal with
  | H : V1.step ?s = _ |- context [bool_decide (V1.step ?s = ?v)] =>
    first [ rewrite (bool_decide_eq_true_2 (V1.step s = v)) by exact H
          | rewrite (bool_decide_eq_false_2 (V1.step s = v)) by (rewrite H; discriminate) ]
  end.

Ltac settle_store :=
  cbn [V1.sessions V1.outbox andb orb];
  repeat match goal with
  | E : ?m !! ?k = Some ?x |- context [alter ?f ?k ?m] => rewrite (alter_present f k m x E)
  | |- context [alter ?f ?k (<[?k := ?x]> ?m)] => rewrite (alter_insert_eq m k f x)
  | |- context [<[?k := ?x]> (<[?k := ?y]> ?m)] => rewrite (insert_insert_eq m k y x)
  end.

Section Rules.
Variable DENTIST : option jsstring.
Variable net : network.
Variable st : V1.server.
Variables sender raw : jsstring.

Let s := session_of st sender.
Let text := trim raw.
Let turn := run (V1.webhook_post DENTIST net (inbound sender raw)) st.

Lemma rule_cancel :
  test_anchored (js "cancelar") text = true →
  turn = (Normal 200,
          {| V1.sessions := <[sender := V1.fresh]> (V1.sessions st);
             V1.outbox :=
               notified DENTIST net
                 (attempt net (V1.outbox st) sender cancel_confirmation)
                 (cancel_alert (V1.name_or s sender)) |}).
Proof.
  subst s text turn. intros H. unfold_turn. known_sender st sender; rewrite H;
    cbn [V1.sessions V1.outbox]; unfold notified;
    destruct DENTIST as [[|c d]|]; cbn [V1.sessions V1.outbox];
    rewrite ?insert_insert_eq; reflexivity.
Qed.

Lemma rule_schedule :
  test_anchored (js "cancelar") text = false →
  test_anchored (js "agendar") text = true ∨ V1.step s = V1.idle →
  turn = (Normal 200,
          {| V1.sessions := <[sender := V1.set_step V1.get_name s]> (V1.sessions st);
             V1.outbox :=
               attempt net (V1.outbox st) sender name_prompt |}).
Proof.
  subst s text turn. intros Hc Ha. unfold_turn.
  assert (test_anchored (js "agendar") (trim raw)
          || bool_decide (V1.step (default V1.fresh (V1.sessions st !! sender)) = V1.idle)
          = true) as Hb.
  { destruct Ha as [-> | Ha]; [done|]. rewrite orb_true_iff. right.
    by apply bool_decide_eq_true_2. }
  known_sender st sender; rewrite Hc, Hb; settle_store; reflexivity.
Qed.

Lemma rule_get_name :
  test_anchored (js "cancelar") text = false →
  test_anchored (js "agendar") text = false →
  V1.step s = V1.get_name →
  turn = (Normal 200,
          {| V1.sessions :=
               <[sender := V1.set_step V1.get_phone (V1.set_name text s)]> (V1.sessions st);
             V1.outbox :=
               attempt net (V1.outbox st) sender phone_prompt |}).
Proof.
  subst s text turn. intros Hc Ha Hs. unfold_turn.
  known_sender st sender; [|discriminate].
  rewrite Hc, Ha. decide_step. settle_store. reflexivity.
Qed.

Lemma rule_get_phone :
  test_anchored (js "cancelar") text = false →
  test_anchored (js "agendar") text = false →
  V1.step s = V1.get_phone →
  turn = (Normal 200,
          {| V1.sessions :=
               <[sender := V1.set_step V1.offer_slots (V1.set_phone (strip_non_digits text) s)]>
                 (V1.sessions st);
             V1.outbox :=
               attempt net (V1.outbox st) sender (slot_offer s) |}).
Proof.
  subst s text turn. intros Hc Ha Hs. unfold_turn.
  known_sender st sender; [|discriminate].
  rewrite Hc, Ha. decide_step. settle_store. reflexivity.
Qed.

Lemma rule_offer_slots_reject :
  test_anchored (js "cancelar") text = false →
  test_anchored (js "agendar") text = false →
  V1.step s = V1.offer_slots →
  V1.find_slot (Number text) = None →
  turn = (Normal 200,
          {| V1.sessions := V1.sessions st;
             V1.outbox :=
               attempt net (V1.outbox st) sender choose_valid_prompt |}).
Proof.
  subst s text turn. intros Hc Ha Hs Hf. unfold_turn.
  known_sender st sender; [|discriminate].
  rewrite Hc, Ha. decide_step. rewrite Hf. settle_store. reflexivity.
Qed.

Lemma rule_offer_slots_accept chosen :
  test_anchored (js "cancelar") text = false →
  test_anchored (js "agendar") text = false →
  V1.step s = V1.offer_slots →
  V1.find_slot (Number text) = Some chosen →
  turn = (Normal 200,
          {| V1.sessions :=
               <[sender := V1.set_step V1.confirm (V1.set_slot (V1.when chosen) s)]>
                 (V1.sessions st);
             V1.outbox :=
               attempt net (V1.outbox st) sender (confirm_prompt chosen) |}).
Proof.
  subst s text turn. intros Hc Ha Hs Hf. unfold_turn.
  known_sender st sender; [|discriminate].
  rewrite Hc, Ha. decide_step. rewrite Hf. settle_store. reflexivity.
Qed.

Lemma rule_confirm :
  test_anchored (js "cancelar") text = false →
  test_anchored (js "agendar") text = false →
  V1.step s = V1.confirm →
  test_anchored (js "confirmo") text = true →
  turn = (Normal 200,
          {| V1.sessions := <[sender := V1.fresh]> (V1.sessions st);
             V1.outbox :=
               notified DENTIST net
                 (attempt net (V1.outbox st) sender (booking_confirmation s))
                 (booking_notice s) |}).
Proof.
  subst s text turn. intros Hc Ha Hs Hk. unfold_turn.
  known_sender st sender; [|discriminate].
  rewrite Hc, Ha. decide_step. rewrite Hk. unfold notified.
  destruct DENTIST as [[|c d]|]; settle_store; reflexivity.
Qed.

Lemma rule_fallback :
  test_anchored (js "cancelar") text = false →
  test_anchored (js "agendar") text = false →
  V1.step s = V1.confirm →
  test_anchored (js "confirmo") text = false →
  turn = (Normal 200,
          {| V1.sessions := V1.sessions st;
             V1.outbox :=
               attempt net (V1.outbox st) sender fallback_prompt |}).
Proof.
  subst s text turn. intros Hc Ha Hs Hk. unfold_turn.
  known_sender st sender; [|discriminate].
  rewrite Hc, Ha. decide_step. rewrite Hk. settle_store. reflexivity.
Qed.
End Rules.

(** ** Every request is one transition *)

Lemma session_of_present st sender :
  V1.step (session_of st sender) ≠ V1.idle →
  V1.sessions st !! sender = Some (session_of st sender).
Proof.
  unfold session_of. destruct (V1.sessions st !! sender); [done|]. simpl. congruence.
Qed.

Lemma text_transition DENTIST st sender raw :
  ∃ s' replies,
    transition DENTIST sender (trim raw) (session_of st sender) s' replies
    ∧ ∀ net, ∃ box',
        run (V1.webhook_post DENTIST net (inbound sender raw)) st
        = (Normal 200, {| V1.sessions := <[sender := s']> (V1.sessions st); V1.outbox := box' |})
        ∧ envelopes box' = envelopes (V1.outbox st) ++ replies.
Proof.
  set (s := session_of st sender). set (t := trim raw).
  assert (V1.step s ≠ V1.idle → <[sender := s]> (V1.sessions st) = V1.sessions st) as same.
  { intros Hs. apply insert_id. by apply session_of_present. }
  destruct (test_anchored (js "cancelar") t) eqn:Hc.
  { eexists _, _. split; [by apply t_cancel|]. intros net. eexists. split; [by apply rule_cancel|].
    by rewrite envelopes_notified, envelopes_attempt, <- app_assoc. }
  destruct (test_anchored (js "agendar") t) eqn:Ha.
  { eexists _, _. split; [apply t_schedule; auto|]. intros net. eexists.
    split; [apply rule_schedule; auto|]. by rewrite envelopes_attempt. }
  destruct (V1.step s) eqn:Hs.
  - eexists _, _. split; [apply t_schedule; auto|]. intros net. eexists.
    split; [apply rule_schedule; auto|]. by rewrite envelopes_attempt.
  - eexists _, _. split; [by apply t_get_name|]. intros net. eexists.
    split; [by apply rule_get_name|]. by rewrite envelopes_attempt.
  - eexists _, _. split; [by apply t_get_phone|]. intros net. eexists.
    split; [by apply rule_get_phone|]. by rewrite envelopes_attempt.
  - destruct (V1.find_slot (Number t)) as [chosen|] eqn:Hf.
    + eexists _, _. split; [by apply t_accept|]. intros net. eexists.
      split; [by apply rule_offer_slots_accept|]. by rewrite envelopes_attempt.
    + eexists _, _. split; [by apply t_reject|]. intros net. eexists. split.
      * rewrite same by congruence. by apply rule_offer_slots_reject.
      * by rewrite envelopes_attempt.
  - destruct (test_anchored (js "confirmo") t) eqn:Hk.
    + eexists _, _. split; [by apply t_confirm|]. intros net. eexists.
      split; [by apply rule_confirm|].
      by rewrite envelopes_notified, envelopes_attempt, <- app_assoc.
    + eexists _, _. split; [by apply t_fallback|]. intros net. eexists. split.
      * rewrite same by congruence. by apply rule_fallback.
      * by rewrite envelopes_attempt.
Qed.

Lemma request_transition DENTIST st req :
  match reading req with
  | None => ∀ net, run (V1.webhook_post DENTIST net req) st = (Normal 200, st)
  | Some (sender, text) =>
    ∃ s' replies,
      transition DENTIST sender text (session_of st sender) s' replies
      ∧ ∀ net, ∃ box',
          run (V1.webhook_post DENTIST net req) st
          = (Normal 200,
             {| V1.sessions := <[sender := s']> (V1.sessions st); V1.outbox := box' |})
          ∧ envelopes box' = envelopes (V1.outbox st) ++ replies
  end.
Proof.
  destruct req as [[sender [|raw|[|]]]|]; cbn [reading body from].
  - apply (text_transition DENTIST st sender []).
  - apply (text_transition DENTIST st sender raw).
  - intros net. destruct st; reflexivity.
  - apply (text_transition DENTIST st sender []).
  - intros net. destruct st; reflexivity.
Qed.

Lemma anchored_exclusive p1 p2 t :
  map canonicalize p1 ≠ map canonicalize p2 →
  test_anchored p1 t = true → test_anchored p2 t = false.
Proof.
  intros Hne H1. destruct (test_anchored p2 t) eqn:H2; [|done].
  apply test_anchored_spec in H1, H2. unfold equal_ignoring_case in *. congruence.
Qed.

Lemma not_cancel_if_schedule t :
  equal_ignoring_case t (js "agendar") → test_anchored (js "cancelar") t = false.
Proof.
  intros H. apply (anchored_exclusive (js "agendar")); [by vm_compute|].
  by apply test_anchored_spec.
Qed.

Lemma after_text DENTIST net st sender raw s' box' :
  run (V1.webhook_post DENTIST net (inbound sender raw)) st
  = (Normal 200, {| V1.sessions := <[sender := s']> (V1.sessions st); V1.outbox := box' |}) →
  status_of DENTIST net st (inbound sender raw) = Normal 200
  ∧ V1.sessions (after DENTIST net st (inbound sender raw)) !! sender = Some s'
  ∧ (∀ other, other ≠ sender →
       V1.sessions (after DENTIST net st (inbound sender raw)) !! other
       = V1.sessions st !! other)
  ∧ V1.outbox (after DENTIST net st (inbound sender raw)) = box'.
Proof.
  intros H. unfold status_of, after. rewrite H. cbn [fst snd V1.sessions V1.outbox].
  split_and!; [done | apply lookup_insert_eq | | done].
  intros other Hne. by apply lookup_insert_ne.
Qed.

(** ** The cancel command *)

(** C5. At every step and with any collected data, a message that is the
    cancel command (after trimming, in any case) is acknowledged with 200,
    leaves the sender's session idle with empty data and every other
    session as it was, and is answered by the cancellation confirmation to
    the sender followed, when a notification recipient is configured, by
    the cancellation alert to it, which names the stored name, or the
    sender id when no name (or an empty one) is stored. *)
Theorem cancel_resets_session DENTIST net st sender raw :
  equal_ignoring_case (trim raw) (js "cancelar") →
  status_of DENTIST net st (inbound sender raw) = Normal 200
  ∧ V1.sessions (after DENTIST net st (inbound sender raw)) !! sender
    = Some {| V1.step := V1.idle; V1.data := V1.empty_data |}
  ∧ (∀ other, other ≠ sender →
       V1.sessions (after DENTIST net st (inbound sender raw)) !! other
       = V1.sessions st !! other)
  ∧ envelopes (V1.outbox (after DENTIST net st (inbound sender raw)))
    = envelopes (V1.outbox st)
      ++ (sender, cancel_confirmation)
         :: match DENTIST with
            | Some (c :: d) =>
              [(c :: d,
                js "⚠️ Paciente "
                ++ match V1.name (V1.data (session_of st sender)) with
                   | Some (x :: n) => x :: n
                   | _ => sender
                   end
                ++ js " cancelou a consulta.")]
            | _ => []
            end.
Proof.
  intros H. apply test_anchored_spec in H.
  pose proof (rule_cancel DENTIST net st sender raw H) as Hrun.
  apply after_text in Hrun as (Hst & Hs & Ho & Hbox).
  split_and!; [done | done | done |].
  rewrite Hbox, envelopes_notified, envelopes_attempt, <- app_assoc. reflexivity.
Qed.

Lemma cancel_resets_session_witness :
  V1.sessions (after (Some dentist) offline at_confirm (inbound patient (js "  CANCELAR "))) !! patient
  = Some {| V1.step := V1.idle; V1.data := V1.empty_data |}.
Proof.
  apply (cancel_resets_session (Some dentist) offline at_confirm patient (js "  CANCELAR ")).
  vm_compute. reflexivity.
Defined.

(** ** The schedule command *)

(** C2, as the handler has it.  The schedule command is tried before the
    rules of the steps: at every step a message that is the schedule
    command (after trimming, in any case) sets the step to [get_name],
    keeps the collected data as they are, stores nothing of the text, and
    is answered by the name prompt. *)
Theorem schedule_command_restarts DENTIST net st sender raw :
  equal_ignoring_case (trim raw) (js "agendar") →
  status_of DENTIST net st (inbound sender raw) = Normal 200
  ∧ V1.sessions (after DENTIST net st (inbound sender raw)) !! sender
    = Some {| V1.step := V1.get_name; V1.data := V1.data (session_of st sender) |}
  ∧ envelopes (V1.outbox (after DENTIST net st (inbound sender raw)))
    = envelopes (V1.outbox st) ++ [(sender, name_prompt)].
Proof.
  intros H. pose proof (not_cancel_if_schedule _ H) as Hc.
  apply test_anchored_spec in H.
  pose proof (rule_schedule DENTIST net st sender raw Hc (or_introl H)) as Hrun.
  apply after_text in Hrun as (Hst & Hs & Ho & Hbox).
  split_and!; [done | done |]. by rewrite Hbox, envelopes_attempt.
Qed.

Lemma schedule_command_restarts_witness :
  V1.sessions (after None offline at_offer_slots (inbound patient (js "Agendar"))) !! patient
  = Some {| V1.step := V1.get_name;
            V1.data := V1.data (session_of at_offer_slots patient) |}.
Proof.
  apply (schedule_command_restarts None offline at_offer_slots patient (js "Agendar")).
  vm_compute. reflexivity.
Defined.

(** C2, as stated, fails: at step [get_name] the text [agendar] is not
    stored as the name and the step does not advance to [get_phone]; the
    session stays at [get_name] without a name. *)
Lemma schedule_at_get_name_not_stored :
  V1.sessions at_get_name !! patient
  = Some {| V1.step := V1.get_name; V1.data := V1.empty_data |}
  ∧ V1.sessions (after None offline at_get_name (inbound patient (js "agendar"))) !! patient
    = Some {| V1.step := V1.get_name; V1.data := V1.empty_data |}
  ∧ V1.sessions (after None offline at_get_name (inbound patient (js "agendar"))) !! patient
    ≠ Some {| V1.step := V1.get_phone;
              V1.data := {| V1.name := Some (js "agendar");
                            V1.phone := None; V1.slot := None |} |}.
Proof. vm_compute. split_and!; [reflexivity | reflexivity | discriminate]. Qed.

(** ** Revision 2: the replies *)

Lemma prefix_exclusive a p1 b p2 t :
  canonicalize a ≠ canonicalize b →
  test_prefix (a :: p1) t = true → test_prefix (b :: p2) t = false.
Proof.
  intros Hne. destruct t as [|c t]; [done|]. simpl. unfold unit_matches.
  rewrite andb_true_iff, N.eqb_eq. intros [Ha _].
  apply andb_false_intro1, N.eqb_neq. congruence.
Qed.

Lemma schedule_is_no_connect t :
  test_prefix (js "agendar") t = true → wants_connect t = false.
Proof.
  intros H. unfold wants_connect.
  assert (test_prefix (js "conectar") t = false) as ->.
  { apply (prefix_exclusive 97 (js "gendar") 99 (js "onectar")); [by vm_compute | exact H]. }
  assert (test_prefix (js "conectar google") t = false) as ->.
  { apply (prefix_exclusive 97 (js "gendar") 99 (js "onectar google")); [by vm_compute | exact H]. }
  assert (test_prefix (js "link google") t = false) as ->.
  { apply (prefix_exclusive 97 (js "gendar") 108 (js "ink google")); [by vm_compute | exact H]. }
  reflexivity.
Qed.

Lemma post_text net auth_url st req sender raw :
  V2.event req = inbound sender raw →
  run (V2.webhook_post net auth_url req) st
  = if wants_connect (trim raw) then
      match auth_url (auth_href req) with
      | Some url =>
        (Normal 200,
         {| V2.googleTokensStore := V2.googleTokensStore st;
            V2.outbox := attempt net (V2.outbox st) sender (connect_reply url) |})
      | None => (Normal 500, st)
      end
    else
      (Normal 200,
       {| V2.googleTokensStore := V2.googleTokensStore st;
          V2.outbox := attempt net (V2.outbox st) sender
                         (if test_prefix (js "agendar") (trim raw)
                          then schedule_reply else default_reply) |}).
Proof.
  intros H. unfold V2.webhook_post, wants_connect, auth_href, connect_reply, schedule_reply,
    default_reply, inbound in *. rewrite H.
  repeat (progress (
    unfold run, try_catch, mbind, M_bind, mret, M_ret, modify, V2.sendText, await, throw;
    cbn [from body V2.inbound_text V2.googleTokensStore V2.outbox])).
  destruct (test_prefix (js "conectar") (trim raw) || test_prefix (js "conectar google") (trim raw)
            || test_prefix (js "link google") (trim raw)).
  - destruct (auth_url _); reflexivity.
  - destruct (test_prefix (js "agendar") (trim raw)); reflexivity.
Qed.

(** ** Command matching *)

Ltac clash H := apply (f_equal (hd 0)) in H; vm_compute in H; discriminate H.

Ltac other_replies Ht :=
  inversion Ht; subst;
  try match goal with H : @eq (list N) _ _ |- _ => clash H end.

Lemma answers_transition DENTIST net st sender raw content :
  answers DENTIST net st sender raw content →
  ∃ s' rest, transition DENTIST sender (trim raw) (session_of st sender) s'
               ((sender, content) :: rest).
Proof.
  intros [rest Hans].
  destruct (text_transition DENTIST st sender raw) as (s' & replies & Ht & Hnet).
  destruct (Hnet net) as (box' & Hrun & Henv).
  apply after_text in Hrun as (_ & _ & _ & Hbox).
  rewrite Hbox, Henv in Hans. apply app_inv_head in Hans. subst replies. eauto.
Qed.

Lemma answers_run DENTIST net st sender raw content s' box' :
  run (V1.webhook_post DENTIST net (inbound sender raw)) st
  = (Normal 200, {| V1.sessions := s'; V1.outbox := box' |}) →
  (∃ rest, envelopes box' = envelopes (V1.outbox st) ++ (sender, content) :: rest) →
  answers DENTIST net st sender raw content.
Proof. intros Hrun [rest H]. exists rest. unfold after. by rewrite Hrun. Qed.

Lemma cancel_answered DENTIST net st sender raw :
  answers DENTIST net st sender raw cancel_confirmation
  ↔ equal_ignoring_case (trim raw) (js "cancelar").
Proof.
  split.
  - intros H. apply answers_transition in H as (s' & rest & Ht).
    apply test_anchored_spec.
    other_replies Ht. done.
  - intros H. apply test_anchored_spec in H.
    eapply answers_run; [by apply rule_cancel|].
    eexists. by rewrite envelopes_notified, envelopes_attempt, <- app_assoc.
Qed.

Lemma schedule_answered DENTIST net st sender raw :
  V1.step (session_of st sender) ≠ V1.idle →
  answers DENTIST net st sender raw name_prompt
  ↔ equal_ignoring_case (trim raw) (js "agendar").
Proof.
  intros Hs. split.
  - intros H. apply answers_transition in H as (s' & rest & Ht).
    apply test_anchored_spec.
    other_replies Ht. by intuition.
  - intros H. pose proof (not_cancel_if_schedule _ H) as Hc. apply test_anchored_spec in H.
    eapply answers_run; [apply rule_schedule; auto|].
    exists []. by rewrite envelopes_attempt.
Qed.

Lemma confirm_answered DENTIST net st sender raw :
  V1.step (session_of st sender) = V1.confirm →
  answers DENTIST net st sender raw (booking_confirmation (session_of st sender))
  ↔ equal_ignoring_case (trim raw) (js "confirmo").
Proof.
  intros Hs. split.
  - intros H. apply answers_transition in H as (s' & rest & Ht).
    apply test_anchored_spec.
    other_replies Ht. done.
  - intros H. apply test_anchored_spec in H.
    eapply answers_run.
    + apply rule_confirm; [| | done | done].
      * apply (anchored_exclusive (js "confirmo")); [by vm_compute | done].
      * apply (anchored_exclusive (js "confirmo")); [by vm_compute | done].
    + eexists. by rewrite envelopes_notified, envelopes_attempt, <- app_assoc.
Qed.

Lemma single_reply (x : jsstring) (a b : jsstring) : [(x, a)] = [(x, b)] → a = b.
Proof. congruence. Qed.

Lemma schedule_replied net auth_url st req sender raw :
  V2.event req = inbound sender raw →
  envelopes (V2.outbox (run (V2.webhook_post net auth_url req) st).2)
  = envelopes (V2.outbox st) ++ [(sender, schedule_reply)]
  ↔ equal_ignoring_case (take (length (js "agendar")) (trim raw)) (js "agendar").
Proof.
  intros Hreq. rewrite (post_text _ _ _ _ _ _ Hreq), <- test_prefix_spec. split.
  - destruct (wants_connect (trim raw)).
    + destruct (auth_url _); cbn [snd V2.outbox].
      * rewrite envelopes_attempt. intros H. apply app_inv_head in H.
        apply single_reply in H. clash H.
      * intros H. apply (f_equal length) in H. rewrite length_app in H. simpl in H. lia.
    + cbn [snd V2.outbox]. rewrite envelopes_attempt. intros H. apply app_inv_head in H.
      destruct (test_prefix (js "agendar") (trim raw)); [done|].
      apply single_reply in H. clash H.
  - intros H. rewrite (schedule_is_no_connect _ H), H. cbn [snd V2.outbox].
    by rewrite envelopes_attempt.
Qed.

(** C7, as the two revisions have it.  Matching is on the trimmed text and
    ignores case.  In revision 1 the cancel, schedule and confirm commands
    must equal their word: the cancellation confirmation is the answer
    exactly to [cancelar], the name prompt (to a session under way) exactly
    to [agendar], the booking confirmation (at step [confirm]) exactly to
    [confirmo].  In revision 2 the schedule command is matched as a prefix:
    the schedule reply is the answer exactly to the texts that begin with
    [agendar]. *)
Theorem command_matching DENTIST net st sender raw net2 auth_url st2 req :
  (answers DENTIST net st sender raw cancel_confirmation
   ↔ equal_ignoring_case (trim raw) (js "cancelar"))
  ∧ (V1.step (session_of st sender) ≠ V1.idle →
     answers DENTIST net st sender raw name_prompt
     ↔ equal_ignoring_case (trim raw) (js "agendar"))
  ∧ (V1.step (session_of st sender) = V1.confirm →
     answers DENTIST net st sender raw (booking_confirmation (session_of st sender))
     ↔ equal_ignoring_case (trim raw) (js "confirmo"))
  ∧ (V2.event req = inbound sender raw →
     envelopes (V2.outbox (run (V2.webhook_post net2 auth_url req) st2).2)
     = envelopes (V2.outbox st2) ++ [(sender, schedule_reply)]
     ↔ equal_ignoring_case (take (length (js "agendar")) (trim raw)) (js "agendar")).
Proof.
  split_and!.
  - apply cancel_answered.
  - apply schedule_answered.
  - apply confirm_answered.
  - apply schedule_replied.
Qed.

Lemma command_matching_witness :
  ¬ answers None offline at_confirm patient (js "agendarXYZ") name_prompt
  ∧ answers None offline at_confirm patient (js " Confirmo ")
      (booking_confirmation (session_of at_confirm patient))
  ∧ envelopes (V2.outbox (run (V2.webhook_post offline any_url
                                 (posted (inbound patient (js "agendarXYZ")))) boot2).2)
    = envelopes (V2.outbox boot2) ++ [(patient, schedule_reply)].
Proof.
  destruct (command_matching None offline at_confirm patient (js "agendarXYZ")
              offline any_url boot2 (posted (inbound patient (js "agendarXYZ"))))
    as (_ & Hs & _ & Hp).
  destruct (command_matching None offline at_confirm patient (js " Confirmo ")
              offline any_url boot2 (posted (inbound patient (js " Confirmo "))))
    as (_ & _ & Hk & _).
  split_and!.
  - intros H. apply Hs in H; [|by vm_compute]. vm_compute in H. discriminate H.
  - apply Hk; vm_compute; reflexivity.
  - apply Hp; vm_compute; reflexivity.
Defined.

(** C7, as stated, fails on revision 2: the trimmed text [agendarXYZ],
    which merely begins with the schedule command, triggers the schedule
    rule. *)
Lemma prefix_triggers_schedule :
  run (V2.webhook_post offline any_url (posted (inbound patient (js "agendarXYZ")))) boot2
  = (Normal 200,
     {| V2.googleTokensStore := ∅;
        V2.outbox := [ {| to := patient; text := schedule_reply; delivered := false |} ] |}).
Proof. vm_compute. reflexivity. Qed.

(** Revision 1 does not: there [agendarXYZ] sent at step [get_name] is
    taken as the name. *)
Example exact_match_in_dialogue :
  V1.sessions (after None offline at_get_name (inbound patient (js "agendarXYZ"))) !! patient
  = Some {| V1.step := V1.get_phone;
            V1.data := {| V1.name := Some (js "agendarXYZ");
                          V1.phone := None; V1.slot := None |} |}.
Proof. vm_compute. reflexivity. Qed.

(** ** The session invariant *)

Lemma fresh_filled : filled_in_order V1.fresh.
Proof.
  unfold filled_in_order, V1.fresh. cbn.
  split_and!; try done; try (intros [? ?]; done). intros [?|?]; done.
Qed.

Lemma fresh_gated : step_gated V1.fresh.
Proof. unfold step_gated, V1.fresh. cbn. split_and!; try done; intros [? ?]; done. Qed.

Lemma transition_filled DENTIST sender text s s' replies :
  transition DENTIST sender text s s' replies → filled_in_order s → filled_in_order s'.
Proof.
  intros Ht (Hidle & Hsp & Hpn & Hgp & Hop & Hcs).
  destruct Ht; try apply fresh_filled; try by (unfold filled_in_order; split_and!).
  - (* schedule *)
    unfold filled_in_order. cbn. split_and!; try done. intros [?|?]; done.
  - (* get_name *)
    unfold filled_in_order. cbn. split_and!; try done; eauto. intros [?|?]; done.
  - (* get_phone *)
    unfold filled_in_order. cbn. split_and!; try done; eauto.
  - (* accept *)
    unfold filled_in_order. cbn. split_and!; try done; eauto.
Qed.

Lemma transition_gated DENTIST sender text s s' replies :
  transition DENTIST sender text s s' replies →
  ¬ (equal_ignoring_case text (js "agendar") ∧ V1.step s ≠ V1.idle) →
  step_gated s → step_gated s'.
Proof.
  intros Ht Hr (Hp & Hs & Hidle).
  destruct Ht; try apply fresh_gated; try by (unfold step_gated; split_and!).
  - (* schedule, from idle only *)
    assert (V1.step s = V1.idle) as Hi.
    { destruct (decide (V1.step s = V1.idle)) as [|Hn]; [done|]. exfalso. apply Hr.
      split; [|done]. apply test_anchored_spec. by intuition. }
    unfold step_gated. cbn. rewrite (Hidle Hi). cbn.
    split_and!; try done; intros [? ?]; done.
  - (* get_name *)
    unfold step_gated. cbn. split_and!; try done.
    + intros Hx. destruct (Hp Hx); congruence.
    + intros Hx. specialize (Hs Hx). congruence.
  - (* get_phone *)
    unfold step_gated. cbn. split_and!; try done; eauto.
    intros Hx. specialize (Hs Hx). congruence.
  - (* accept *)
    unfold step_gated. cbn. split_and!; try done; eauto.
Qed.

Lemma session_of_holds (P : V1.Session → Prop) st sender :
  P V1.fresh → (∀ k s, V1.sessions st !! k = Some s → P s) → P (session_of st sender).
Proof.
  intros Hf Hall. unfold session_of.
  destruct (V1.sessions st !! sender) eqn:E; [by eapply Hall | exact Hf].
Qed.

Lemma after_holds (P : V1.Session → Prop) DENTIST net st req :
  (∀ sender text s' replies,
     reading req = Some (sender, text) →
     transition DENTIST sender text (session_of st sender) s' replies → P s') →
  (∀ k s, V1.sessions st !! k = Some s → P s) →
  ∀ k s, V1.sessions (after DENTIST net st req) !! k = Some s → P s.
Proof.
  intros Hstep Hall k s. unfold after.
  pose proof (request_transition DENTIST st req) as Hreq.
  destruct (reading req) as [[sender text]|].
  - destruct Hreq as (s' & replies & Ht & Hnet).
    destruct (Hnet net) as (box' & -> & _). cbn [snd V1.sessions].
    rewrite lookup_insert. case_decide.
    + intros [= <-]. by eapply Hstep.
    + apply Hall.
  - rewrite Hreq. apply Hall.
Qed.

Lemma after_filled DENTIST net st req :
  (∀ k s, V1.sessions st !! k = Some s → filled_in_order s) →
  ∀ k s, V1.sessions (after DENTIST net st req) !! k = Some s → filled_in_order s.
Proof.
  intros Hall. apply after_holds; [|done].
  intros sender text s' replies _ Ht. eapply transition_filled; [done|].
  apply session_of_holds; [apply fresh_filled | done].
Qed.

Lemma after_gated DENTIST net st req :
  (∀ k s, V1.sessions st !! k = Some s → step_gated s) →
  ¬ restarts st req →
  ∀ k s, V1.sessions (after DENTIST net st req) !! k = Some s → step_gated s.
Proof.
  intros Hall Hr. apply after_holds; [|done].
  intros sender text s' replies Hread Ht. eapply transition_gated; [done | |].
  - intros [Ha Hs]. apply Hr. by exists sender, text.
  - apply session_of_holds; [apply fresh_gated | done].
Qed.

Lemma deliver_all_filled DENTIST net reqs st :
  (∀ k s, V1.sessions st !! k = Some s → filled_in_order s) →
  ∀ k s, V1.sessions (deliver_all DENTIST net reqs st) !! k = Some s → filled_in_order s.
Proof.
  revert st. induction reqs as [|req reqs IH]; intros st Hall; [done|].
  cbn. apply IH. by apply after_filled.
Qed.

Lemma deliver_all_gated DENTIST net reqs st :
  restart_free DENTIST net reqs st →
  (∀ k s, V1.sessions st !! k = Some s → step_gated s) →
  ∀ k s, V1.sessions (deliver_all DENTIST net reqs st) !! k = Some s → step_gated s.
Proof.
  revert st. induction reqs as [|req reqs IH]; intros st Hfree Hall; [done|].
  destruct Hfree as [Hreq Hfree]. cbn. apply IH; [done|]. by apply after_gated.
Qed.

(** C1, as the handler has it.  In every session reachable from the start
    by any sequence of requests, an idle session has empty data, the
    fields are filled in the order of the dialogue (a slot implies a phone,
    a phone a name) and are present once their step is passed; every
    request preserves this.  The step gating of the specification is
    preserved by every request that is not a restart, and holds in every
    session reached without one: the schedule command sent to a session
    under way sets the step back and keeps the data. *)
Theorem sessions_filled_in_order DENTIST net :
  (∀ reqs sender s,
     V1.sessions (deliver_all DENTIST net reqs boot) !! sender = Some s → filled_in_order s)
  ∧ (∀ st req,
       (∀ k s, V1.sessions st !! k = Some s → filled_in_order s) →
       ∀ k s, V1.sessions (after DENTIST net st req) !! k = Some s → filled_in_order s)
  ∧ (∀ st req,
       (∀ k s, V1.sessions st !! k = Some s → step_gated s) →
       ¬ restarts st req →
       ∀ k s, V1.sessions (after DENTIST net st req) !! k = Some s → step_gated s)
  ∧ (∀ reqs sender s,
       restart_free DENTIST net reqs boot →
       V1.sessions (deliver_all DENTIST net reqs boot) !! sender = Some s → step_gated s).
Proof.
  assert (∀ k s, V1.sessions boot !! k = Some s → False) as none.
  { intros k s. unfold boot. cbn [V1.sessions]. by rewrite lookup_empty. }
  split_and!.
  - intros reqs sender s. apply deliver_all_filled. intros k s0 H. by destruct (none k s0).
  - apply after_filled.
  - apply after_gated.
  - intros reqs sender s Hfree. apply deliver_all_gated; [done|].
    intros k s0 H. by destruct (none k s0).
Qed.

Lemma sessions_filled_in_order_witness :
  filled_in_order
    {| V1.step := V1.get_name;
       V1.data := {| V1.name := Some (js "Maria Silva");
                     V1.phone := Some (js "11912345678"); V1.slot := None |} |}
  ∧ step_gated
      {| V1.step := V1.confirm;
         V1.data := {| V1.name := Some (js "Maria Silva");
                       V1.phone := Some (js "11912345678");
                       V1.slot := Some (js "Amanhã 10:30") |} |}.
Proof.
  split.
  - apply (proj1 (sessions_filled_in_order None offline)
             [inbound patient (js "oi"); inbound patient (js "Maria Silva");
              inbound patient (js "(11) 91234-5678"); inbound patient (js "agendar")]
             patient).
    vm_compute. reflexivity.
  - apply (proj2 (proj2 (proj2 (sessions_filled_in_order None offline)))
             [inbound patient (js "oi"); inbound patient (js "Maria Silva");
              inbound patient (js "(11) 91234-5678"); inbound patient (js "2")]
             patient).
    + cbn [restart_free]. split_and!; try exact I;
        intros (sender & text & Hread & Heq & _); injection Hread as <- <-;
        vm_compute in Heq; discriminate Heq.
    + vm_compute. reflexivity.
Defined.

(** C1, as stated, fails: after a name and a phone, the schedule command
    takes the session from [offer_slots], where it is gated, back to
    [get_name] with the phone still set. *)
Lemma restart_keeps_phone :
  V1.sessions at_offer_slots !! patient
  = Some {| V1.step := V1.offer_slots;
            V1.data := {| V1.name := Some (js "Maria Silva");
                          V1.phone := Some (js "11912345678"); V1.slot := None |} |}
  ∧ step_gated {| V1.step := V1.offer_slots;
                  V1.data := {| V1.name := Some (js "Maria Silva");
                                V1.phone := Some (js "11912345678"); V1.slot := None |} |}
  ∧ V1.sessions (deliver_all None offline
                   [inbound patient (js "oi"); inbound patient (js "Maria Silva");
                    inbound patient (js "(11) 91234-5678"); inbound patient (js "agendar")]
                   boot) !! patient
    = Some {| V1.step := V1.get_name;
              V1.data := {| V1.name := Some (js "Maria Silva");
                            V1.phone := Some (js "11912345678"); V1.slot := None |} |}
  ∧ ¬ step_gated {| V1.step := V1.get_name;
                    V1.data := {| V1.name := Some (js "Maria Silva");
                                  V1.phone := Some (js "11912345678"); V1.slot := None |} |}.
Proof.
  split_and!.
  - vm_compute. reflexivity.
  - unfold step_gated. cbn. split_and!; [by left | intros [? ?]; done | done].
  - vm_compute. reflexivity.
  - intros (Hp & _ & _). cbn in Hp. destruct Hp as [?|?]; [eauto | done | done].
Qed.

(** ** Acknowledgment and delivery failures *)

Lemma post_status_sessions DENTIST net net' st req :
  status_of DENTIST net st req = Normal 200
  ∧ V1.sessions (after DENTIST net st req) = V1.sessions (after DENTIST net' st req).
Proof.
  unfold status_of, after.
  pose proof (request_transition DENTIST st req) as H.
  destruct (reading req) as [[sender text]|].
  - destruct H as (s' & replies & _ & Hnet).
    destruct (Hnet net) as (b1 & -> & _). destruct (Hnet net') as (b2 & -> & _). done.
  - by rewrite !H.
Qed.

Lemma post_status2 net auth_url st req :
  (run (V2.webhook_post net auth_url req) st).1
  = Normal (if throws auth_url req then 500 else 200)
  ∧ V2.googleTokensStore (run (V2.webhook_post net auth_url req) st).2
    = V2.googleTokensStore st.
Proof.
  unfold throws. destruct (V2.event req) as [[sender [|raw|b]]|] eqn:E.
  - unfold V2.webhook_post. rewrite E. destruct st. vm_compute. done.
  - rewrite (post_text net auth_url st req sender raw E). cbn [body].
    destruct (wants_connect (trim raw)); [destruct (auth_url _)|]; done.
  - unfold V2.webhook_post. rewrite E. destruct st, b; done.
  - unfold V2.webhook_post. rewrite E. destruct st; done.
Qed.

(** C9, as the two revisions have it.  Revision 1 answers every inbound
    event with 200, also when reading the text throws, and the sessions
    after the turn are the same whatever the outcome of the deliveries.
    Revision 2, which keeps no session and leaves the credential store
    alone, answers 200 whatever the outcome of the deliveries, but 500 when
    processing throws. *)
Theorem acknowledged_whatever_delivery DENTIST net net' st req auth_url st2 req2 :
  (status_of DENTIST net st req = Normal 200
   ∧ V1.sessions (after DENTIST net st req) = V1.sessions (after DENTIST net' st req))
  ∧ ((run (V2.webhook_post net auth_url req2) st2).1
     = Normal (if throws auth_url req2 then 500 else 200)
     ∧ (run (V2.webhook_post net' auth_url req2) st2).1
       = (run (V2.webhook_post net auth_url req2) st2).1
     ∧ V2.googleTokensStore (run (V2.webhook_post net auth_url req2) st2).2
       = V2.googleTokensStore st2).
Proof.
  split; [apply post_status_sessions|].
  destruct (post_status2 net auth_url st2 req2) as [H1 H2].
  destruct (post_status2 net' auth_url st2 req2) as [H1' _].
  split_and!; [done | by rewrite H1, H1' | done].
Qed.

(** C9, as stated, fails on revision 2: an inbound message whose text body
    is a number makes processing throw, and the endpoint answers 500. *)
Lemma processing_failure_is_500 :
  run (V2.webhook_post offline any_url
         (posted (Some {| from := patient; body := body_other true |}))) boot2
  = (Normal 500, boot2).
Proof. vm_compute. reflexivity. Qed.

(** Revision 1 answers the same event with 200 and leaves the sessions as
    they were. *)
Example processing_failure_is_200 :
  run (V1.webhook_post None offline (Some {| from := patient; body := body_other true |}))
      at_confirm
  = (Normal 200, at_confirm).
Proof. vm_compute. reflexivity. Qed.

(** ** The subscription handshake *)

Lemma verification_with_secret secret mode token challenge :
  (V1.webhook_get (Some secret) mode token challenge = Send 200 challenge
   ↔ mode = q_string (js "subscribe") ∧ token = q_string secret)
  ∧ (V2.webhook_get (Some secret) mode token challenge = Send 200 challenge
     ↔ mode = q_string (js "subscribe") ∧ token = q_string secret)
  ∧ (V1.webhook_get (Some secret) mode token challenge = SendStatus 403
     ∨ V1.webhook_get (Some secret) mode token challenge = Send 200 challenge).
Proof.
  unfold V1.webhook_get, V2.webhook_get, strict_equals_string, strict_equals_env.
  destruct mode as [|m|], token as [|t|]; cbn [andb];
    repeat case_bool_decide; subst; cbn [andb];
    split_and!; try (split; [intros [=] | intros [[=] [=]]]); try done; try congruence;
    eauto.
Qed.

(** C3: where the code departs from it.  With no secret configured, a
    caller that omits the token passes the verification: [token] and
    [META_VERIFY_TOKEN] are both [undefined], which [===] holds equal, and
    the challenge is echoed with 200, in both revisions. *)
Theorem unset_secret_accepts_omitted_token challenge :
  V1.webhook_get None (q_string (js "subscribe")) q_absent challenge = Send 200 challenge
  ∧ V2.webhook_get None (q_string (js "subscribe")) q_absent challenge = Send 200 challenge.
Proof. split; reflexivity. Qed.

(** ** The credential store *)

Lemma dentistId_of_state parsed_dentistId state v :
  V2.truthy state = true → parsed_dentistId state = Some v → json_truthy v = true →
  V2.callback_dentistId parsed_dentistId state = v.
Proof. unfold V2.callback_dentistId. by intros -> -> ->. Qed.

Lemma dentistId_default parsed_dentistId state :
  V2.truthy state = false ∨ parsed_dentistId state = None
  ∨ (∃ v, parsed_dentistId state = Some v ∧ json_truthy v = false) →
  V2.callback_dentistId parsed_dentistId state = j_string (js "default").
Proof.
  unfold V2.callback_dentistId.
  intros [-> | [-> | (v & -> & Hv)]]; [done | by destruct (V2.truthy state) |].
  destruct (V2.truthy state); [by rewrite Hv | done].
Qed.

(** X20. Revision 2's callback writes the credential store exactly when
    the exchange of its code completes: then the record of the dentist id
    is the tokens of that exchange, whatever was stored before and whatever
    the listing made afterwards does, and every other record is as it was;
    without a code, or when the exchange is rejected, the store is as it
    was.  The dentist id is the [dentistId] the state carries, of whatever
    type, when the state is not empty, parses, and that value is truthy;
    it is the string [default] in every other case. *)
Theorem credential_written_by_exchange getToken calendarList_list parsed_dentistId st code state :
  match (if V2.truthy code then getToken code else None) with
  | Some tokens =>
    V2.googleTokensStore (after_callback getToken calendarList_list parsed_dentistId st code state)
    = <[V2.callback_dentistId parsed_dentistId state := tokens]> (V2.googleTokensStore st)
    ∧ V2.googleTokensStore (after_callback getToken calendarList_list parsed_dentistId st code state)
        !! V2.callback_dentistId parsed_dentistId state
      = Some tokens
    ∧ ∃ payload,
        callback_response getToken calendarList_list parsed_dentistId st code state
        = Normal (Send (if calendarList_list tokens then 200 else 500) payload)
  | None =>
    V2.googleTokensStore (after_callback getToken calendarList_list parsed_dentistId st code state)
    = V2.googleTokensStore st
    ∧ ∃ payload,
        callback_response getToken calendarList_list parsed_dentistId st code state
        = Normal (Send (if V2.truthy code then 500 else 400) payload)
  end
  ∧ (∀ v, V2.truthy state = true → parsed_dentistId state = Some v → json_truthy v = true →
          V2.callback_dentistId parsed_dentistId state = v)
  ∧ (V2.truthy state = false ∨ parsed_dentistId state = None
     ∨ (∃ v, parsed_dentistId state = Some v ∧ json_truthy v = false) →
     V2.callback_dentistId parsed_dentistId state = j_string (js "default")).
Proof.
  split; [|split; [apply dentistId_of_state | apply dentistId_default]].
  unfold after_callback, callback_response, V2.google_callback.
  destruct (V2.truthy code); cbn [negb].
  - repeat (progress (
      unfold run, try_catch, mbind, M_bind, mret, M_ret, modify, await, throw,
        V2.googleTokensStore_set;
      cbn [V2.googleTokensStore V2.outbox fst snd])).
    destruct (getToken code) as [tokens|]; cbn [V2.googleTokensStore V2.outbox fst snd].
    + destruct (calendarList_list tokens); cbn [V2.googleTokensStore V2.outbox fst snd];
        (split_and!; [done | apply lookup_insert_eq | eauto]).
    + eauto.
  - unfold run, mret, M_ret. cbn [fst snd]. eauto.
Qed.

(** The state names the number 5: the tokens are stored under that number,
    and nothing under [default]; a state that does not parse, or none,
    names [default]. *)
Lemma credential_written_by_exchange_witness :
  V2.callback_dentistId parse_numbered (q_string numbered_state) = j_number (Q2Qc 5)
  ∧ V2.callback_dentistId parse_numbered (q_string (js "clinica")) = j_string (js "default")
  ∧ V2.callback_dentistId parse_numbered q_absent = j_string (js "default").
Proof.
  split_and!.
  - apply (proj1 (proj2 (credential_written_by_exchange exchange listing_fails parse_numbered
                           boot2 (q_string (js "code-1")) (q_string numbered_state))));
      vm_compute; reflexivity.
  - apply (proj2 (proj2 (credential_written_by_exchange exchange listing_fails parse_numbered
                           boot2 (q_string (js "code-1")) (q_string (js "clinica"))))).
    right. left. vm_compute. reflexivity.
  - apply (proj2 (proj2 (credential_written_by_exchange exchange listing_fails parse_numbered
                           boot2 (q_string (js "code-1")) q_absent))).
    left. reflexivity.
Defined.

Example number_names_its_own_record :
  V2.googleTokensStore
    (after_callback exchange listing_fails parse_numbered boot2
       (q_string (js "code-1")) (q_string numbered_state))
    !! j_number (Q2Qc 5) = Some first_tokens
  ∧ V2.googleTokensStore
      (after_callback exchange listing_fails parse_numbered boot2
         (q_string (js "code-1")) (q_string numbered_state))
      !! j_string (js "default") = None.
Proof. vm_compute. done. Qed.

(** Scenario E: two callbacks for the dentist id [default]; the second
    record replaces the first as a whole, also its missing refresh token,
    and although the listing fails. *)
Example second_exchange_overwrites :
  V2.googleTokensStore
    (after_callback exchange listing_fails no_dentist boot2 (q_string (js "code-1")) q_absent)
    !! j_string (js "default") = Some first_tokens
  ∧ V2.googleTokensStore
      (after_callback exchange listing_fails no_dentist
         (after_callback exchange listing_fails no_dentist boot2 (q_string (js "code-1")) q_absent)
         (q_string (js "code-2")) q_absent)
      !! j_string (js "default") = Some second_tokens
  ∧ V2.googleTokensStore
      (after_callback exchange listing_fails no_dentist
         (after_callback exchange listing_fails no_dentist boot2 (q_string (js "code-1")) q_absent)
         (q_string (js "code-3")) q_absent)
      !! j_string (js "default") = Some first_tokens.
Proof. vm_compute. done. Qed.

(** C4. Revision 1's callback keeps no credential.  When the exchange of
    its code succeeds it answers that the account is connected, and the
    process state is as it was before: the tokens, whatever they hold, are
    stored for no dentist, although the handler's own comment says they are
    to be saved per dentist and revision 2 does save them.  A rejected
    exchange answers 500 and changes nothing either. *)
Theorem first_revision_drops_tokens {Tokens : Type} (getToken : query_value → option Tokens)
    st code state :
  run (V1.google_callback getToken code state) st
  = (Normal match getToken code with
            | Some _ => Send 200 (q_string (js "Conta Google conectada com sucesso!"))
            | None => Send 500 (q_string (js "Falha ao concluir OAuth."))
            end, st).
Proof.
  unfold V1.google_callback, run, try_catch, mbind, M_bind, mret, M_ret, await.
  by destruct (getToken code).
Qed.

(** ** The phone number *)

Lemma white_space_is_no_digit c : is_white_space c = true → is_digit c = false.
Proof.
  unfold is_white_space, is_digit. intros H.
  destruct (48 <=? c) eqn:Hlo; [|done]. destruct (c <=? 57) eqn:Hhi; [|done].
  apply N.leb_le in Hlo, Hhi. exfalso.
  repeat (apply orb_true_iff in H as [H|H]);
    try (apply N.eqb_eq in H; lia).
  apply andb_true_iff in H as [H1 H2]. apply N.leb_le in H1. lia.
Qed.

Lemma strip_trim_start s : strip_non_digits (trim_start s) = strip_non_digits s.
Proof.
  unfold strip_non_digits. induction s as [|c s IH]; [done|]. simpl.
  destruct (is_white_space c) eqn:Hw; [|done].
  rewrite IH, filter_cons_False; [done|]. by rewrite (white_space_is_no_digit c Hw).
Qed.

Lemma strip_rev s : strip_non_digits (rev s) = rev (strip_non_digits s).
Proof.
  unfold strip_non_digits. induction s as [|c s IH]; [done|]. simpl.
  rewrite filter_app, IH, filter_cons, filter_nil.
  case_decide.
  - by rewrite filter_cons_True.
  - by rewrite filter_cons_False, app_nil_r.
Qed.

Lemma strip_trim s : strip_non_digits (trim s) = strip_non_digits s.
Proof.
  unfold trim. by rewrite strip_rev, strip_trim_start, strip_rev, rev_involutive, strip_trim_start.
Qed.

(** C8, as the handler has it.  At step [get_phone], a text that is neither
    the cancel nor the schedule command is stored without its characters
    that are not digits as the phone, the name and slot stay as they are,
    the step becomes [offer_slots] and the slot catalog is sent; the text
    [(11) 91234-5678] is stored as [11912345678]. *)
Theorem phone_stored_digits_only DENTIST net st sender raw :
  V1.step (session_of st sender) = V1.get_phone →
  ¬ equal_ignoring_case (trim raw) (js "cancelar") →
  ¬ equal_ignoring_case (trim raw) (js "agendar") →
  (status_of DENTIST net st (inbound sender raw) = Normal 200
   ∧ V1.sessions (after DENTIST net st (inbound sender raw)) !! sender
     = Some {| V1.step := V1.offer_slots;
               V1.data := {| V1.name := V1.name (V1.data (session_of st sender));
                             V1.phone := Some (strip_non_digits raw);
                             V1.slot := V1.slot (V1.data (session_of st sender)) |} |}
   ∧ envelopes (V1.outbox (after DENTIST net st (inbound sender raw)))
     = envelopes (V1.outbox st) ++ [(sender, slot_offer (session_of st sender))])
  ∧ strip_non_digits (js "(11) 91234-5678") = js "11912345678".
Proof.
  intros Hs Hc Ha. split; [|by vm_compute].
  rewrite <- test_anchored_spec in Hc, Ha.
  apply not_true_is_false in Hc, Ha.
  pose proof (rule_get_phone DENTIST net st sender raw Hc Ha Hs) as Hrun.
  apply after_text in Hrun as (Hst & Hn & _ & Hbox).
  split_and!; [done | | by rewrite Hbox, envelopes_attempt].
  rewrite Hn. unfold V1.set_step, V1.set_phone. cbn. by rewrite strip_trim.
Qed.

Lemma phone_stored_digits_only_witness :
  V1.sessions (after None offline at_get_phone (inbound patient (js "(11) 91234-5678"))) !! patient
  = Some {| V1.step := V1.offer_slots;
            V1.data := {| V1.name := V1.name (V1.data (session_of at_get_phone patient));
                          V1.phone := Some (strip_non_digits (js "(11) 91234-5678"));
                          V1.slot := V1.slot (V1.data (session_of at_get_phone patient)) |} |}.
Proof.
  apply (phone_stored_digits_only None offline at_get_phone patient (js "(11) 91234-5678")).
  - vm_compute. reflexivity.
  - vm_compute. discriminate.
  - vm_compute. discriminate.
Defined.

(** C8, as stated, fails: at step [get_phone] the text [cancelar] is not
    stored as a phone; the session is reset. *)
Lemma cancel_at_get_phone_not_stored :
  V1.step (session_of at_get_phone patient) = V1.get_phone
  ∧ V1.sessions (after None offline at_get_phone (inbound patient (js "cancelar"))) !! patient
    = Some {| V1.step := V1.idle; V1.data := V1.empty_data |}
  ∧ V1.sessions (after None offline at_get_phone (inbound patient (js "cancelar"))) !! patient
    ≠ Some {| V1.step := V1.offer_slots;
              V1.data := {| V1.name := Some (js "Maria Silva");
                            V1.phone := Some (strip_non_digits (js "cancelar"));
                            V1.slot := None |} |}.
Proof. vm_compute. split_and!; [reflexivity | reflexivity | discriminate]. Qed.

(** ** The slot choice *)

Lemma canonical_preimage c u :
  canonicalize c = u → (65 <=? u) && (u <=? 90) = true → c = u ∨ c = u + 32.
Proof.
  unfold canonicalize. destruct ((97 <=? c) && (c <=? 122)) eqn:E; intros <- H.
  - right. apply andb_true_iff in E as [E1 E2]. apply N.leb_le in E1, E2. lia.
  - by left.
Qed.

Ltac either_case :=
  repeat match goal with
  | H : canonicalize _ = _ |- _ =>
    apply canonical_preimage in H; [destruct H as [-> | ->] | reflexivity]
  end.

Lemma cancel_is_no_number t : test_anchored (js "cancelar") t = true → Number t = NaN.
Proof.
  intros H. apply test_anchored_spec in H. unfold equal_ignoring_case in H.
  assert (map canonicalize (js "cancelar") = [67; 65; 78; 67; 69; 76; 65; 82]) as E
    by (vm_compute; reflexivity).
  rewrite E in H. clear E.
  do 8 (destruct t as [|? t]; [discriminate H|]). destruct t; [|discriminate H].
  cbn [map] in H. injection H as H1 H2 H3 H4 H5 H6 H7 H8.
  either_case; vm_compute; reflexivity.
Qed.

Lemma schedule_is_no_number t : test_anchored (js "agendar") t = true → Number t = NaN.
Proof.
  intros H. apply test_anchored_spec in H. unfold equal_ignoring_case in H.
  assert (map canonicalize (js "agendar") = [65; 71; 69; 78; 68; 65; 82]) as E
    by (vm_compute; reflexivity).
  rewrite E in H. clear E.
  do 7 (destruct t as [|? t]; [discriminate H|]). destruct t; [|discriminate H].
  cbn [map] in H. injection H as H1 H2 H3 H4 H5 H6 H7.
  either_case; vm_compute; reflexivity.
Qed.

Lemma number_is_no_command t q :
  Number t = Finite q →
  test_anchored (js "cancelar") t = false ∧ test_anchored (js "agendar") t = false.
Proof.
  intros H. split.
  - destruct (test_anchored (js "cancelar") t) eqn:E; [|done].
    apply cancel_is_no_number in E. congruence.
  - destruct (test_anchored (js "agendar") t) eqn:E; [|done].
    apply schedule_is_no_number in E. congruence.
Qed.

Lemma find_slot_none chosen :
  chosen = NaN ∨ (∀ s, s ∈ V1.SLOTS → strict_equals (V1.slot_id s) chosen = false) →
  V1.find_slot chosen = None.
Proof.
  intros [-> | H]; [reflexivity|]. unfold V1.find_slot.
  destruct (find _ V1.SLOTS) as [s|] eqn:E; [|done].
  apply find_some in E as [Hin Hs]. apply list_elem_of_In in Hin.
  rewrite (H s Hin) in Hs. discriminate.
Qed.

Lemma strict_equals_proper id q q' :
  (q == q')%Q → strict_equals id (Finite q) = strict_equals id (Finite q').
Proof. intros H. unfold strict_equals. by rewrite H. Qed.

Lemma unmatched_choice DENTIST net st sender raw :
  V1.step (session_of st sender) = V1.offer_slots →
  test_anchored (js "cancelar") (trim raw) = false →
  test_anchored (js "agendar") (trim raw) = false →
  V1.find_slot (Number (trim raw)) = None →
  status_of DENTIST net st (inbound sender raw) = Normal 200
  ∧ V1.sessions (after DENTIST net st (inbound sender raw)) = V1.sessions st
  ∧ envelopes (V1.outbox (after DENTIST net st (inbound sender raw)))
    = envelopes (V1.outbox st) ++ [(sender, choose_valid_prompt)].
Proof.
  intros Hs Hc Ha Hn.
  pose proof (rule_offer_slots_reject DENTIST net st sender raw Hc Ha Hs Hn) as Hrun.
  unfold status_of, after. rewrite Hrun. cbn [fst snd V1.sessions V1.outbox].
  by rewrite envelopes_attempt.
Qed.

(** C6, as the handler has it.  At step [offer_slots], a text that is
    neither the cancel nor the schedule command and that is no number, or
    whose number equals no slot id of the catalog, is acknowledged with
    200, leaves every session as it was, and is answered by the prompt to
    choose a valid id alone. *)
Theorem invalid_choice_reprompts DENTIST net st sender raw :
  V1.step (session_of st sender) = V1.offer_slots →
  ¬ equal_ignoring_case (trim raw) (js "cancelar") →
  ¬ equal_ignoring_case (trim raw) (js "agendar") →
  Number (trim raw) = NaN
  ∨ (∀ s, s ∈ V1.SLOTS → strict_equals (V1.slot_id s) (Number (trim raw)) = false) →
  status_of DENTIST net st (inbound sender raw) = Normal 200
  ∧ V1.sessions (after DENTIST net st (inbound sender raw)) = V1.sessions st
  ∧ envelopes (V1.outbox (after DENTIST net st (inbound sender raw)))
    = envelopes (V1.outbox st) ++ [(sender, choose_valid_prompt)].
Proof.
  intros Hs Hc Ha Hn.
  rewrite <- test_anchored_spec in Hc, Ha. apply not_true_is_false in Hc, Ha.
  apply find_slot_none in Hn. by apply unmatched_choice.
Qed.

Lemma invalid_choice_reprompts_witness :
  V1.sessions (after None offline at_offer_slots (inbound patient (js "7"))) = V1.sessions at_offer_slots
  ∧ V1.sessions (after None offline at_offer_slots (inbound patient (js "amanhã"))) = V1.sessions at_offer_slots.
Proof.
  split.
  - apply (invalid_choice_reprompts None offline at_offer_slots patient (js "7")).
    + vm_compute. reflexivity.
    + vm_compute. discriminate.
    + vm_compute. discriminate.
    + right. intros s Hs. apply list_elem_of_In in Hs.
      destruct Hs as [<- | [<- | [<- | []]]]; vm_compute; reflexivity.
  - apply (invalid_choice_reprompts None offline at_offer_slots patient (js "amanhã")).
    + vm_compute. reflexivity.
    + vm_compute. discriminate.
    + vm_compute. discriminate.
    + left. vm_compute. reflexivity.
Defined.

(** C6, as stated, fails: at step [offer_slots] the text [cancelar] does
    not parse as a number, and yet the step does not stay and the data are
    not kept: the session is reset. *)
Lemma cancel_at_offer_slots_resets :
  V1.sessions at_offer_slots !! patient
  = Some {| V1.step := V1.offer_slots;
            V1.data := {| V1.name := Some (js "Maria Silva");
                          V1.phone := Some (js "11912345678"); V1.slot := None |} |}
  ∧ Number (trim (js "cancelar")) = NaN
  ∧ V1.sessions (after None offline at_offer_slots (inbound patient (js "cancelar"))) !! patient
    = Some {| V1.step := V1.idle; V1.data := V1.empty_data |}
  ∧ V1.sessions (after None offline at_offer_slots (inbound patient (js "cancelar"))) !! patient
    ≠ V1.sessions at_offer_slots !! patient
  ∧ envelopes (V1.outbox (after None offline at_offer_slots (inbound patient (js "cancelar"))))
    = envelopes (V1.outbox at_offer_slots) ++ [(patient, cancel_confirmation)].
Proof. vm_compute. split_and!; try reflexivity. discriminate. Qed.

Lemma strict_equals_apart a b q :
  (inject_Z (Z.pos a) + half_gap_above a < inject_Z (Z.pos b) - half_gap_below b)%Q →
  strict_equals a (Finite q) = true → strict_equals b (Finite q) = true → False.
Proof.
  unfold strict_equals. rewrite !andb_true_iff, !Qle_bool_iff.
  intros Hlt [_ Ha] [Hb _]. apply (Qlt_not_le _ _ Hlt). by apply Qle_trans with q.
Qed.

Lemma find_slot_matching chosen n :
  chosen ∈ V1.SLOTS →
  strict_equals (V1.slot_id chosen) n = true →
  V1.find_slot n = Some chosen.
Proof.
  intros Hin H. destruct n as [| |q]; try discriminate H. revert Hin H.
  unfold V1.find_slot, V1.SLOTS. rewrite !elem_of_cons, elem_of_nil.
  intros [-> | [-> | [-> | []]]] H; cbn [find V1.slot_id] in *.
  - by rewrite H.
  - destruct (strict_equals 1 (Finite q)) eqn:H1.
    { exfalso. apply (strict_equals_apart 1 2 q); [by vm_compute | done | done]. }
    by rewrite H.
  - destruct (strict_equals 1 (Finite q)) eqn:H1.
    { exfalso. apply (strict_equals_apart 1 3 q); [by vm_compute | done | done]. }
    destruct (strict_equals 2 (Finite q)) eqn:H2.
    { exfalso. apply (strict_equals_apart 2 3 q); [by vm_compute | done | done]. }
    by rewrite H.
Qed.

Lemma exact_value_equals q chosen :
  chosen ∈ V1.SLOTS →
  (q == inject_Z (Z.pos (V1.slot_id chosen)))%Q →
  strict_equals (V1.slot_id chosen) (Finite q) = true.
Proof.
  unfold V1.SLOTS. rewrite !elem_of_cons, elem_of_nil.
  intros [-> | [-> | [-> | []]]] Hq; cbn [V1.slot_id] in *;
    rewrite (strict_equals_proper _ _ _ Hq); vm_compute; reflexivity.
Qed.

(** C10. At step [offer_slots] the text goes through [Number]: every text
    whose number equals the id of a slot of the catalog chooses that slot
    (its label is stored, the step becomes [confirm], the confirmation
    prompt shows the label), and a text whose exact value is the id has
    such a number, whatever its spelling; so [2.0], [2e0] and [0x2] choose
    the slot of id 2; the empty text is the number 0, which no slot has,
    and is answered by the prompt to choose a valid id. *)
Theorem numeric_choice_accepted DENTIST net st sender :
  V1.step (session_of st sender) = V1.offer_slots →
  (∀ raw chosen,
     chosen ∈ V1.SLOTS →
     strict_equals (V1.slot_id chosen) (Number (trim raw)) = true →
     status_of DENTIST net st (inbound sender raw) = Normal 200
     ∧ V1.sessions (after DENTIST net st (inbound sender raw)) !! sender
       = Some {| V1.step := V1.confirm;
                 V1.data := {| V1.name := V1.name (V1.data (session_of st sender));
                               V1.phone := V1.phone (V1.data (session_of st sender));
                               V1.slot := Some (V1.when chosen) |} |}
     ∧ envelopes (V1.outbox (after DENTIST net st (inbound sender raw)))
       = envelopes (V1.outbox st) ++ [(sender, confirm_prompt chosen)])
  ∧ (∀ raw q chosen,
       chosen ∈ V1.SLOTS →
       Number (trim raw) = Finite q →
       (q == inject_Z (Z.pos (V1.slot_id chosen)))%Q →
       strict_equals (V1.slot_id chosen) (Number (trim raw)) = true)
  ∧ (∀ raw,
       raw ∈ [js "2.0"; js "2e0"; js "0x2"] →
       V1.sessions (after DENTIST net st (inbound sender raw)) !! sender
       = Some {| V1.step := V1.confirm;
                 V1.data := {| V1.name := V1.name (V1.data (session_of st sender));
                               V1.phone := V1.phone (V1.data (session_of st sender));
                               V1.slot := Some (js "Amanhã 10:30") |} |})
  ∧ (Number [] = Finite 0
     ∧ V1.sessions (after DENTIST net st (inbound sender [])) = V1.sessions st
     ∧ envelopes (V1.outbox (after DENTIST net st (inbound sender [])))
       = envelopes (V1.outbox st) ++ [(sender, choose_valid_prompt)]).
Proof.
  intros Hs.
  assert (∀ raw chosen,
     chosen ∈ V1.SLOTS →
     strict_equals (V1.slot_id chosen) (Number (trim raw)) = true →
     status_of DENTIST net st (inbound sender raw) = Normal 200
     ∧ V1.sessions (after DENTIST net st (inbound sender raw)) !! sender
       = Some {| V1.step := V1.confirm;
                 V1.data := {| V1.name := V1.name (V1.data (session_of st sender));
                               V1.phone := V1.phone (V1.data (session_of st sender));
                               V1.slot := Some (V1.when chosen) |} |}
     ∧ envelopes (V1.outbox (after DENTIST net st (inbound sender raw)))
       = envelopes (V1.outbox st) ++ [(sender, confirm_prompt chosen)]) as accepted.
  { intros raw chosen Hin Heq.
    pose proof (find_slot_matching chosen _ Hin Heq) as Hf.
    destruct (Number (trim raw)) as [| |q] eqn:Hn; try discriminate Heq.
    destruct (number_is_no_command _ _ Hn) as [Hc Ha]. rewrite <- Hn in Hf.
    pose proof (rule_offer_slots_accept DENTIST net st sender raw chosen Hc Ha Hs Hf) as Hrun.
    apply after_text in Hrun as (Hst & Hn' & _ & Hbox).
    split_and!; [done | done | by rewrite Hbox, envelopes_attempt]. }
  split_and!; [exact accepted | | | reflexivity | |].
  - intros raw q chosen Hin -> Hq. by apply exact_value_equals.
  - intros raw Hraw. apply list_elem_of_In in Hraw.
    destruct Hraw as [<- | [<- | [<- | []]]];
      apply (accepted _ {| V1.slot_id := 2; V1.when := js "Amanhã 10:30" |});
      solve [vm_compute; repeat constructor | vm_compute; reflexivity].
  - by apply (unmatched_choice DENTIST net st sender []).
  - by apply (unmatched_choice DENTIST net st sender []).
Qed.

Lemma numeric_choice_accepted_witness :
  V1.sessions (after None offline at_offer_slots (inbound patient (js " 0x2 "))) !! patient
  = Some {| V1.step := V1.confirm;
            V1.data := {| V1.name := V1.name (V1.data (session_of at_offer_slots patient));
                          V1.phone := V1.phone (V1.data (session_of at_offer_slots patient));
                          V1.slot := Some (js "Amanhã 10:30") |} |}
  ∧ strict_equals 2 (Number (trim (js "1.9999999999999999"))) = true.
Proof.
  assert (V1.step (session_of at_offer_slots patient) = V1.offer_slots) as Hs
    by (vm_compute; reflexivity).
  split.
  - apply (proj1 (numeric_choice_accepted None offline at_offer_slots patient Hs)
             (js " 0x2 ") {| V1.slot_id := 2; V1.when := js "Amanhã 10:30" |}).
    + vm_compute. repeat constructor.
    + vm_compute. reflexivity.
  - vm_compute. reflexivity.
Defined.

(** * Further properties *)

(** ** One request, as a transition of the sender's session *)

Lemma turn_outcome DENTIST net st req sender text :
  reading req = Some (sender, text) →
  ∃ s' replies,
    transition DENTIST sender text (session_of st sender) s' replies
    ∧ status_of DENTIST net st req = Normal 200
    ∧ V1.sessions (after DENTIST net st req) = <[sender := s']> (V1.sessions st)
    ∧ envelopes (V1.outbox (after DENTIST net st req)) = envelopes (V1.outbox st) ++ replies.
Proof.
  intros Hread. pose proof (request_transition DENTIST st req) as H. rewrite Hread in H.
  destruct H as (s' & replies & Ht & Hnet). destruct (Hnet net) as (box' & Hrun & Henv).
  exists s', replies. unfold status_of, after. rewrite Hrun. done.
Qed.

Lemma unread_outcome DENTIST net st req :
  reading req = None → run (V1.webhook_post DENTIST net req) st = (Normal 200, st).
Proof.
  intros Hread. pose proof (request_transition DENTIST st req) as H. rewrite Hread in H.
  apply H.
Qed.

Lemma reading_inbound sender raw : reading (inbound sender raw) = Some (sender, trim raw).
Proof. reflexivity. Qed.

Lemma transition_deterministic DENTIST sender text s s1 r1 s2 r2 :
  transition DENTIST sender text s s1 r1 →
  transition DENTIST sender text s s2 r2 →
  s1 = s2 ∧ r1 = r2.
Proof.
  intros H1 H2.
  destruct H1; destruct H2;
    try (exfalso; congruence);
    try (exfalso; intuition congruence);
    try (split; reflexivity).
  assert (chosen = chosen0) as -> by congruence. split; reflexivity.
Qed.

Ltac which_rule Ht := inversion Ht; subst; try (exfalso; congruence).

Lemma no_command text pat :
  ¬ equal_ignoring_case text pat → test_anchored pat text = false.
Proof. rewrite <- test_anchored_spec. apply not_true_is_false. Qed.

Lemma head_reply (x a b : jsstring) (r r' : list (jsstring * jsstring)) :
  (x, a) :: r = (x, b) :: r' → a = b ∧ r = r'.
Proof. intros H. injection H as -> ->. done. Qed.

Ltac differ H := first [ clash H | vm_compute in H; discriminate H ].

(** ** The rules of the dialogue the claims leave out *)

(** X1. The first text of an unknown sender, and any text sent to an idle
    session, starts the dialogue unless it is the cancel command: the step
    becomes [get_name], the name prompt is the only reply, and the text
    itself is not kept. *)
Theorem first_message_starts_dialogue DENTIST net st req sender text :
  reading req = Some (sender, text) →
  V1.step (session_of st sender) = V1.idle →
  ¬ equal_ignoring_case text (js "cancelar") →
  status_of DENTIST net st req = Normal 200
  ∧ V1.sessions (after DENTIST net st req) !! sender
    = Some {| V1.step := V1.get_name; V1.data := V1.data (session_of st sender) |}
  ∧ envelopes (V1.outbox (after DENTIST net st req))
    = envelopes (V1.outbox st) ++ [(sender, name_prompt)].
Proof.
  intros Hread Hs Hc. apply no_command in Hc.
  destruct (turn_outcome DENTIST net st req sender text Hread)
    as (s' & replies & Ht & Hst & Hses & Henv).
  rewrite Hses, Henv, lookup_insert_eq. which_rule Ht. done.
Qed.

Lemma first_message_starts_dialogue_witness :
  V1.sessions (after None offline boot (inbound patient (js "Maria Silva"))) !! patient
  = Some {| V1.step := V1.get_name; V1.data := V1.data (session_of boot patient) |}.
Proof.
  apply (first_message_starts_dialogue None offline boot
           (inbound patient (js "Maria Silva")) patient (trim (js "Maria Silva"))).
  - reflexivity.
  - vm_compute. reflexivity.
  - vm_compute. discriminate.
Defined.

(** X2. At step [get_name], a text that is neither the cancel nor the
    schedule command is stored as read (trimmed; empty for a message
    without text) as the name, the phone and slot stay as they are, the
    step becomes [get_phone] and the phone prompt is the only reply. *)
Theorem name_stored_as_read DENTIST net st req sender text :
  reading req = Some (sender, text) →
  V1.step (session_of st sender) = V1.get_name →
  ¬ equal_ignoring_case text (js "cancelar") →
  ¬ equal_ignoring_case text (js "agendar") →
  status_of DENTIST net st req = Normal 200
  ∧ V1.sessions (after DENTIST net st req) !! sender
    = Some {| V1.step := V1.get_phone;
              V1.data := {| V1.name := Some text;
                            V1.phone := V1.phone (V1.data (session_of st sender));
                            V1.slot := V1.slot (V1.data (session_of st sender)) |} |}
  ∧ envelopes (V1.outbox (after DENTIST net st req))
    = envelopes (V1.outbox st) ++ [(sender, phone_prompt)].
Proof.
  intros Hread Hs Hc Ha. apply no_command in Hc, Ha.
  destruct (turn_outcome DENTIST net st req sender text Hread)
    as (s' & replies & Ht & Hst & Hses & Henv).
  rewrite Hses, Henv, lookup_insert_eq. which_rule Ht; [exfalso; intuition congruence | done].
Qed.

Lemma name_stored_as_read_witness :
  V1.sessions (after None offline at_get_name (inbound patient (js "  Maria Silva "))) !! patient
  = Some {| V1.step := V1.get_phone;
            V1.data := {| V1.name := Some (trim (js "  Maria Silva "));
                          V1.phone := V1.phone (V1.data (session_of at_get_name patient));
                          V1.slot := V1.slot (V1.data (session_of at_get_name patient)) |} |}.
Proof.
  apply (name_stored_as_read None offline at_get_name
           (inbound patient (js "  Maria Silva ")) patient (trim (js "  Maria Silva "))).
  - reflexivity.
  - vm_compute. reflexivity.
  - vm_compute. discriminate.
  - vm_compute. discriminate.
Defined.

(** X3. At step [confirm], the confirm command (after trimming, in any
    case) resets the sender's session to idle with empty data and is
    answered by the booking confirmation showing the stored slot, followed,
    when a notification recipient is configured, by the booking notice to
    it with the stored name, phone and slot. *)
Theorem booking_confirmed DENTIST net st req sender text :
  reading req = Some (sender, text) →
  V1.step (session_of st sender) = V1.confirm →
  equal_ignoring_case text (js "confirmo") →
  status_of DENTIST net st req = Normal 200
  ∧ V1.sessions (after DENTIST net st req) !! sender
    = Some {| V1.step := V1.idle; V1.data := V1.empty_data |}
  ∧ envelopes (V1.outbox (after DENTIST net st req))
    = envelopes (V1.outbox st)
      ++ (sender, booking_confirmation (session_of st sender))
         :: match DENTIST with
            | Some (c :: d) => [(c :: d, booking_notice (session_of st sender))]
            | _ => []
            end.
Proof.
  intros Hread Hs Hk. apply test_anchored_spec in Hk.
  assert (test_anchored (js "cancelar") text = false) as Hc
    by (apply (anchored_exclusive (js "confirmo")); [by vm_compute | done]).
  assert (test_anchored (js "agendar") text = false) as Ha
    by (apply (anchored_exclusive (js "confirmo")); [by vm_compute | done]).
  destruct (turn_outcome DENTIST net st req sender text Hread)
    as (s' & replies & Ht & Hst & Hses & Henv).
  rewrite Hses, Henv, lookup_insert_eq. which_rule Ht; [exfalso; intuition congruence | done].
Qed.

Lemma booking_confirmed_witness :
  V1.sessions (after (Some dentist) offline at_confirm (inbound patient (js "CONFIRMO"))) !! patient
  = Some {| V1.step := V1.idle; V1.data := V1.empty_data |}.
Proof.
  apply (booking_confirmed (Some dentist) offline at_confirm
           (inbound patient (js "CONFIRMO")) patient (trim (js "CONFIRMO"))).
  - reflexivity.
  - vm_compute. reflexivity.
  - vm_compute. reflexivity.
Defined.

(** X4. The fallback prompt is the reply exactly to a session at step
    [confirm] whose text is none of the cancel, schedule and confirm
    commands; such a turn leaves every session as it was.  At the other
    steps every text is taken by a rule. *)
Theorem fallback_only_at_confirm DENTIST net st req sender text :
  reading req = Some (sender, text) →
  (envelopes (V1.outbox (after DENTIST net st req))
   = envelopes (V1.outbox st) ++ [(sender, fallback_prompt)]
   ↔ V1.step (session_of st sender) = V1.confirm
     ∧ ¬ equal_ignoring_case text (js "cancelar")
     ∧ ¬ equal_ignoring_case text (js "agendar")
     ∧ ¬ equal_ignoring_case text (js "confirmo"))
  ∧ (envelopes (V1.outbox (after DENTIST net st req))
     = envelopes (V1.outbox st) ++ [(sender, fallback_prompt)] →
     V1.sessions (after DENTIST net st req) = V1.sessions st).
Proof.
  intros Hread.
  destruct (turn_outcome DENTIST net st req sender text Hread)
    as (s' & replies & Ht & Hst & Hses & Henv).
  rewrite Hses, Henv.
  assert (replies = [(sender, fallback_prompt)] →
          V1.step (session_of st sender) = V1.confirm
          ∧ test_anchored (js "cancelar") text = false
          ∧ test_anchored (js "agendar") text = false
          ∧ test_anchored (js "confirmo") text = false
          ∧ s' = session_of st sender) as only.
  { intros Hr. subst replies.
    inversion Ht as [| | | | | | |]; subst;
      try match goal with H : @eq (list N) _ _ |- _ => differ H end.
    done. }
  split.
  - rewrite <- !test_anchored_spec. split.
    + intros H. apply app_inv_head in H. destruct (only H) as (? & Hc & Ha & Hk & _).
      rewrite Hc, Ha, Hk. done.
    + intros (Hs & Hc & Ha & Hk). apply not_true_is_false in Hc, Ha, Hk.
      f_equal. clear only. which_rule Ht; [exfalso; intuition congruence | reflexivity].
  - intros H. apply app_inv_head in H. destruct (only H) as (Hs & _ & _ & _ & ->).
    apply insert_id, session_of_present. by rewrite Hs.
Qed.

Lemma fallback_only_at_confirm_witness :
  envelopes (V1.outbox (after None offline at_confirm (inbound patient (js "3"))))
  = envelopes (V1.outbox at_confirm) ++ [(patient, fallback_prompt)]
  ∧ V1.sessions (after None offline at_confirm (inbound patient (js "3")))
    = V1.sessions at_confirm.
Proof.
  destruct (fallback_only_at_confirm None offline at_confirm
              (inbound patient (js "3")) patient (trim (js "3")) eq_refl) as [Hiff Hsame].
  assert (envelopes (V1.outbox (after None offline at_confirm (inbound patient (js "3"))))
          = envelopes (V1.outbox at_confirm) ++ [(patient, fallback_prompt)]) as H.
  { apply Hiff. split_and!; vm_compute; first [reflexivity | discriminate]. }
  split; [exact H | exact (Hsame H)].
Defined.

(** ** The session store *)

Lemma reading_sender req sender text :
  reading req = Some (sender, text) → ∃ msg, req = Some msg ∧ from msg = sender.
Proof.
  destruct req as [msg|]; [|done]. unfold reading.
  destruct (body msg) as [| |[|]]; intros [= <- _]; eauto.
Qed.

Lemma session_of_insert st st' sender s' k :
  V1.sessions st' = <[sender := s']> (V1.sessions st) →
  session_of st' k = if decide (sender = k) then s' else session_of st k.
Proof. intros H. unfold session_of. rewrite H, lookup_insert. by case_decide. Qed.

(** X5. A request changes at most the session of its sender: every other
    session is as it was; no session is ever removed; a request whose text
    is read leaves its sender with a session, and one that is not read
    (no message, or a text body that makes reading throw) creates none. *)
Theorem other_sessions_untouched DENTIST net st req :
  (∀ k, (∀ msg, req = Some msg → from msg ≠ k) →
        V1.sessions (after DENTIST net st req) !! k = V1.sessions st !! k)
  ∧ (∀ k, is_Some (V1.sessions st !! k) →
          is_Some (V1.sessions (after DENTIST net st req) !! k))
  ∧ (∀ sender text, reading req = Some (sender, text) →
                    is_Some (V1.sessions (after DENTIST net st req) !! sender))
  ∧ (reading req = None → V1.sessions (after DENTIST net st req) = V1.sessions st).
Proof.
  destruct (reading req) as [[sender text]|] eqn:Hread.
  - destruct (turn_outcome DENTIST net st req sender text Hread)
      as (s' & replies & _ & _ & Hses & _).
    destruct (reading_sender _ _ _ Hread) as (msg & -> & Hfrom).
    rewrite Hses. split_and!.
    + intros k Hk. apply lookup_insert_ne. rewrite <- Hfrom. by apply Hk.
    + intros k Hk. rewrite lookup_insert. by case_decide.
    + intros ? ? [= <- _]. rewrite lookup_insert_eq. eauto.
    + done.
  - unfold after. rewrite (unread_outcome DENTIST net st req Hread). cbn [snd].
    split_and!; done.
Qed.

Lemma other_sessions_untouched_witness :
  V1.sessions (after None offline at_confirm (inbound dentist (js "oi"))) !! patient
  = V1.sessions at_confirm !! patient.
Proof.
  apply (proj1 (other_sessions_untouched None offline at_confirm (inbound dentist (js "oi")))).
  intros msg [= <-]. vm_compute. discriminate.
Defined.

(** X6. No step of the dialogue is skipped: whatever the request, the
    session of every sender stays at its step, is reset to [idle], is
    (re)started at [get_name], or advances by exactly one step. *)
Theorem no_step_skipped DENTIST net st req k :
  step_allowed (V1.step (session_of st k))
               (V1.step (session_of (after DENTIST net st req) k)).
Proof.
  destruct (reading req) as [[sender text]|] eqn:Hread.
  - destruct (turn_outcome DENTIST net st req sender text Hread)
      as (s' & replies & Ht & _ & Hses & _).
    rewrite (session_of_insert _ _ _ _ k Hses). case_decide; [subst k|by left].
    unfold step_allowed.
    destruct Ht; cbn [V1.step V1.set_step V1.set_name V1.set_phone V1.set_slot V1.fresh];
      intuition.
  - unfold after. rewrite (unread_outcome DENTIST net st req Hread). by left.
Qed.

(** ** What is stored *)

Lemma strip_only_digits s : Forall (λ c, is_digit c = true) (strip_non_digits s).
Proof.
  unfold strip_non_digits. induction s as [|c s IH]; [constructor|].
  rewrite filter_cons. case_decide; [by constructor | done].
Qed.

Lemma find_slot_catalog chosen x : V1.find_slot chosen = Some x → x ∈ V1.SLOTS.
Proof. unfold V1.find_slot. intros H. apply find_some in H as [H _]. by apply list_elem_of_In. Qed.

Lemma fresh_well_formed : data_well_formed V1.fresh.
Proof. unfold data_well_formed. cbn. split_and!; intros ? [=]. Qed.

Lemma transition_well_formed DENTIST sender text s s' replies :
  transition DENTIST sender text s s' replies → data_well_formed s → data_well_formed s'.
Proof.
  intros Ht (Hn & Hp & Hl).
  destruct Ht; try apply fresh_well_formed; try by (unfold data_well_formed; split_and!).
  - unfold data_well_formed. cbn. split_and!; [|done|done]. by intros n [= <-].
  - unfold data_well_formed. cbn. split_and!; [done| |done].
    intros p [= <-]. apply strip_only_digits.
  - unfold data_well_formed. cbn. split_and!; [done|done|].
    intros l [= <-]. exists chosen. split; [|done]. by eapply find_slot_catalog.
Qed.

Lemma after_well_formed DENTIST net st req :
  (∀ k s, V1.sessions st !! k = Some s → data_well_formed s) →
  ∀ k s, V1.sessions (after DENTIST net st req) !! k = Some s → data_well_formed s.
Proof.
  intros Hall. apply after_holds; [|done].
  intros sender text s' replies _ Ht. eapply transition_well_formed; [done|].
  apply session_of_holds; [apply fresh_well_formed | done].
Qed.

Lemma deliver_all_well_formed DENTIST net reqs st :
  (∀ k s, V1.sessions st !! k = Some s → data_well_formed s) →
  ∀ k s, V1.sessions (deliver_all DENTIST net reqs st) !! k = Some s → data_well_formed s.
Proof.
  revert st. induction reqs as [|req reqs IH]; intros st Hall; [done|].
  cbn. apply IH. by apply after_well_formed.
Qed.

Lemma boot_has_no_session k s : V1.sessions boot !! k = Some s → False.
Proof. unfold boot. cbn [V1.sessions]. by rewrite lookup_empty. Qed.

(** X7. In every session reachable from the start by any sequence of
    requests, a stored phone consists of digits only, a stored slot is the
    label of a slot of the catalog, and a stored name is neither the cancel
    nor the schedule command; every request preserves this. *)
Theorem stored_data_well_formed DENTIST net :
  (∀ reqs sender s,
     V1.sessions (deliver_all DENTIST net reqs boot) !! sender = Some s → data_well_formed s)
  ∧ (∀ st req,
       (∀ k s, V1.sessions st !! k = Some s → data_well_formed s) →
       ∀ k s, V1.sessions (after DENTIST net st req) !! k = Some s → data_well_formed s).
Proof.
  split.
  - intros reqs sender s. apply deliver_all_well_formed.
    intros k s0 H. by destruct (boot_has_no_session k s0).
  - apply after_well_formed.
Qed.

Lemma stored_data_well_formed_witness :
  data_well_formed
    {| V1.step := V1.confirm;
       V1.data := {| V1.name := Some (js "Maria Silva");
                     V1.phone := Some (js "11912345678");
                     V1.slot := Some (js "Amanhã 10:30") |} |}.
Proof.
  apply (proj1 (stored_data_well_formed None offline)
           [inbound patient (js "oi"); inbound patient (js "Maria Silva");
            inbound patient (js "(11) 91234-5678"); inbound patient (js "2")]
           patient).
  vm_compute. reflexivity.
Defined.



(** X9. In every reachable session at step [confirm] the name, the phone
    and the slot are all stored, so the booking notice prints the three of
    them and never [undefined]; at step [get_phone] the name is stored, so
    the slot offer greets the patient by it. *)
Theorem notice_is_complete DENTIST net reqs sender :
  (V1.step (session_of (deliver_all DENTIST net reqs boot) sender) = V1.confirm →
   ∃ n p x,
     V1.data (session_of (deliver_all DENTIST net reqs boot) sender)
     = {| V1.name := Some n; V1.phone := Some p; V1.slot := Some (V1.when x) |}
     ∧ x ∈ V1.SLOTS
     ∧ Forall (λ c, is_digit c = true) p
     ∧ booking_notice (session_of (deliver_all DENTIST net reqs boot) sender)
       = js "📬 Nova consulta confirmada:" ++ LF
         ++ js "Paciente: " ++ n ++ LF
         ++ js "Telefone: " ++ p ++ LF
         ++ js "Horário: " ++ V1.when x
     ∧ booking_confirmation (session_of (deliver_all DENTIST net reqs boot) sender)
       = js "✅ Consulta confirmada para *" ++ V1.when x ++ js "*." ++ LF ++ js "Até lá!")
  ∧ (V1.step (session_of (deliver_all DENTIST net reqs boot) sender) = V1.get_phone →
     ∃ n,
       V1.name (V1.data (session_of (deliver_all DENTIST net reqs boot) sender)) = Some n
       ∧ slot_offer (session_of (deliver_all DENTIST net reqs boot) sender)
         = js "Obrigado, " ++ n ++ js "! Temos estes horários:" ++ LF ++ V1.slot_list
           ++ LF ++ LF ++ js "Responda com *1*, *2* ou *3*.").
Proof.
  set (st := deliver_all DENTIST net reqs boot).
  assert (V1.step (session_of st sender) ≠ V1.idle →
          filled_in_order (session_of st sender)
          ∧ data_well_formed (session_of st sender)) as Hinv.
  { intros Hs. apply session_of_present in Hs. split.
    - eapply (deliver_all_filled DENTIST net reqs boot); [|exact Hs].
      intros k s0 H. by destruct (boot_has_no_session k s0).
    - eapply (deliver_all_well_formed DENTIST net reqs boot); [|exact Hs].
      intros k s0 H. by destruct (boot_has_no_session k s0). }
  unfold booking_notice, booking_confirmation, slot_offer.
  unfold filled_in_order, data_well_formed in Hinv.
  destruct (session_of st sender) as [step [name phone slot]].
  cbn [V1.step V1.data V1.name V1.phone V1.slot] in *.
  split; intros Hs.
  - destruct Hinv as [(_ & _ & Hpn & _ & Hop & Hcs) (_ & Hp & Hl)]; [congruence|].
    destruct (Hcs Hs) as [l ->]. destruct (Hop (or_intror Hs)) as [p ->].
    destruct (Hpn (ex_intro _ p eq_refl)) as [n ->].
    destruct (Hl l eq_refl) as (x & Hx & ->).
    exists n, p, x. split_and!; try reflexivity; [done | by apply Hp].
  - destruct Hinv as [(_ & _ & _ & Hgp & _) _]; [congruence|].
    destruct (Hgp Hs) as [n ->]. exists n. split; reflexivity.
Qed.

Lemma notice_is_complete_witness :
  ∃ n p x,
    V1.data (session_of (deliver_all None offline
                           [inbound patient (js "oi"); inbound patient (js "Maria Silva");
                            inbound patient (js "(11) 91234-5678"); inbound patient (js "2")]
                           boot) patient)
    = {| V1.name := Some n; V1.phone := Some p; V1.slot := Some (V1.when x) |}.
Proof.
  destruct (proj1 (notice_is_complete None offline
                     [inbound patient (js "oi"); inbound patient (js "Maria Silva");
                      inbound patient (js "(11) 91234-5678"); inbound patient (js "2")]
                     patient)) as (n & p & x & H & _).
  - vm_compute. reflexivity.
  - exists n, p, x. exact H.
Defined.

(** ** A whole booking *)

Lemma next_session DENTIST net st req sender text s' replies :
  reading req = Some (sender, text) →
  (∀ s'' replies'',
     transition DENTIST sender text (session_of st sender) s'' replies'' →
     s'' = s' ∧ replies'' = replies) →
  session_of (after DENTIST net st req) sender = s'
  ∧ envelopes (V1.outbox (after DENTIST net st req)) = envelopes (V1.outbox st) ++ replies.
Proof.
  intros Hread Honly.
  destruct (turn_outcome DENTIST net st req sender text Hread)
    as (s'' & replies'' & Ht & _ & Hses & Henv).
  destruct (Honly _ _ Ht) as [-> ->].
  rewrite (session_of_insert _ _ _ _ sender Hses), Henv. by case_decide.
Qed.

Ltac session_fields :=
  unfold slot_offer, booking_confirmation, booking_notice in *;
  cbn [V1.step V1.data V1.name V1.phone V1.slot V1.set_step V1.set_name V1.set_phone
       V1.set_slot interpolate default from_option id] in *.

Ltac only_rule Ht :=
  inversion Ht; subst; session_fields;
  try (exfalso; congruence); try (exfalso; intuition congruence).

(** X10. A whole booking.  From an idle (or unknown) sender and any first
    text that is not the cancel command, or from any step and whatever was
    collected when the first text is the schedule command: a name and a
    phone that are no commands, then a text whose number is the id of a
    slot, then the confirm command, leave the sender's session idle with
    empty data and send, in this order, the name prompt, the phone prompt,
    the slot offer greeting by the trimmed name, the confirmation prompt
    for the slot, the booking confirmation, and, to the configured
    recipient, the notice with the trimmed name, the digits of the phone
    and the label of the slot: nothing collected before a restart shows. *)
Theorem complete_booking DENTIST net st sender first name phone choice x :
  V1.step (session_of st sender) = V1.idle
  ∨ equal_ignoring_case (trim first) (js "agendar") →
  ¬ equal_ignoring_case (trim first) (js "cancelar") →
  ¬ equal_ignoring_case (trim name) (js "cancelar") →
  ¬ equal_ignoring_case (trim name) (js "agendar") →
  ¬ equal_ignoring_case (trim phone) (js "cancelar") →
  ¬ equal_ignoring_case (trim phone) (js "agendar") →
  x ∈ V1.SLOTS →
  strict_equals (V1.slot_id x) (Number (trim choice)) = true →
  session_of
    (deliver_all DENTIST net
       [inbound sender first; inbound sender name; inbound sender phone;
        inbound sender choice; inbound sender (js "confirmo")] st) sender
  = V1.fresh
  ∧ envelopes
      (V1.outbox
         (deliver_all DENTIST net
            [inbound sender first; inbound sender name; inbound sender phone;
             inbound sender choice; inbound sender (js "confirmo")] st))
    = envelopes (V1.outbox st)
      ++ [(sender, name_prompt);
          (sender, phone_prompt);
          (sender, js "Obrigado, " ++ trim name ++ js "! Temos estes horários:" ++ LF
                   ++ V1.slot_list ++ LF ++ LF ++ js "Responda com *1*, *2* ou *3*.");
          (sender, confirm_prompt x);
          (sender, js "✅ Consulta confirmada para *" ++ V1.when x ++ js "*." ++ LF
                   ++ js "Até lá!")]
      ++ to_dentist DENTIST
           (js "📬 Nova consulta confirmada:" ++ LF
            ++ js "Paciente: " ++ trim name ++ LF
            ++ js "Telefone: " ++ strip_non_digits phone ++ LF
            ++ js "Horário: " ++ V1.when x).
Proof.
  intros Hs Hc0 Hc1 Ha1 Hc2 Ha2 Hx Heq.
  rewrite <- test_anchored_spec in Hs.
  apply no_command in Hc0, Hc1, Ha1, Hc2, Ha2.
  pose proof (find_slot_matching x _ Hx Heq) as Hf.
  destruct (Number (trim choice)) as [| |q] eqn:Hn; try discriminate Heq.
  destruct (number_is_no_command _ _ Hn) as [Hc3 Ha3]. rewrite <- Hn in Hf.
  cbn [deliver_all fold_left].
  set (st1 := after DENTIST net st (inbound sender first)).
  set (st2 := after DENTIST net st1 (inbound sender name)).
  set (st3 := after DENTIST net st2 (inbound sender phone)).
  set (st4 := after DENTIST net st3 (inbound sender choice)).
  destruct (next_session DENTIST net st (inbound sender first) sender (trim first)
              (V1.set_step V1.get_name (session_of st sender)) [(sender, name_prompt)] eq_refl) as [E1 B1].
  { intros s'' r'' Ht. only_rule Ht. done. }
  fold st1 in E1, B1.
  destruct (next_session DENTIST net st1 (inbound sender name) sender (trim name)
              (V1.set_step V1.get_phone (V1.set_name (trim name) (V1.set_step V1.get_name (session_of st sender))))
              [(sender, phone_prompt)] eq_refl) as [E2 B2].
  { intros s'' r'' Ht. rewrite E1 in Ht.
    only_rule Ht. done. }
  fold st2 in E2, B2.
  destruct (next_session DENTIST net st2 (inbound sender phone) sender (trim phone)
              (V1.set_step V1.offer_slots (V1.set_phone (strip_non_digits (trim phone))
                 (V1.set_step V1.get_phone (V1.set_name (trim name)
                    (V1.set_step V1.get_name (session_of st sender))))))
              [(sender, js "Obrigado, " ++ trim name ++ js "! Temos estes horários:" ++ LF
                        ++ V1.slot_list ++ LF ++ LF ++ js "Responda com *1*, *2* ou *3*.")]
              eq_refl) as [E3 B3].
  { intros s'' r'' Ht. rewrite E2 in Ht.
    only_rule Ht. done. }
  fold st3 in E3, B3.
  destruct (next_session DENTIST net st3 (inbound sender choice) sender (trim choice)
              (V1.set_step V1.confirm (V1.set_slot (V1.when x)
                 (V1.set_step V1.offer_slots (V1.set_phone (strip_non_digits (trim phone))
                    (V1.set_step V1.get_phone (V1.set_name (trim name)
                       (V1.set_step V1.get_name (session_of st sender))))))))
              [(sender, confirm_prompt x)] eq_refl) as [E4 B4].
  { intros s'' r'' Ht. rewrite E3 in Ht.
    only_rule Ht. assert (chosen = x) as -> by congruence. done. }
  fold st4 in E4, B4.
  destruct (next_session DENTIST net st4 (inbound sender (js "confirmo")) sender
              (trim (js "confirmo")) V1.fresh
              ((sender, js "✅ Consulta confirmada para *" ++ V1.when x ++ js "*." ++ LF
                        ++ js "Até lá!")
               :: to_dentist DENTIST
                    (js "📬 Nova consulta confirmada:" ++ LF
                     ++ js "Paciente: " ++ trim name ++ LF
                     ++ js "Telefone: " ++ strip_non_digits phone ++ LF
                     ++ js "Horário: " ++ V1.when x)) eq_refl) as [E5 B5].
  { intros s'' r'' Ht. rewrite E4 in Ht.
    assert (test_anchored (js "confirmo") (trim (js "confirmo")) = true) as Hk
      by (vm_compute; reflexivity).
    assert (test_anchored (js "cancelar") (trim (js "confirmo")) = false) as Hc5
      by (vm_compute; reflexivity).
    assert (test_anchored (js "agendar") (trim (js "confirmo")) = false) as Ha5
      by (vm_compute; reflexivity).
    only_rule Ht. by rewrite strip_trim. }
  split; [exact E5|].
  rewrite B5, B4, B3, B2, B1, <- !app_assoc. reflexivity.
Qed.

Lemma complete_booking_witness :
  session_of
    (deliver_all (Some dentist) offline
       [inbound patient (js "oi"); inbound patient (js "Maria Silva");
        inbound patient (js "(11) 91234-5678"); inbound patient (js "2");
        inbound patient (js "confirmo")] boot) patient
  = V1.fresh.
Proof.
  apply (complete_booking (Some dentist) offline boot patient (js "oi") (js "Maria Silva")
           (js "(11) 91234-5678") (js "2")
           {| V1.slot_id := 2; V1.when := js "Amanhã 10:30" |}).
  - left. vm_compute. reflexivity.
  - vm_compute. discriminate.
  - vm_compute. discriminate.
  - vm_compute. discriminate.
  - vm_compute. discriminate.
  - vm_compute. discriminate.
  - vm_compute. repeat constructor.
  - vm_compute. reflexivity.
Defined.

(** ** Deliveries that fail *)

Lemma after_congruent DENTIST net net' st st' req :
  V1.sessions st = V1.sessions st' →
  envelopes (V1.outbox st) = envelopes (V1.outbox st') →
  V1.sessions (after DENTIST net st req) = V1.sessions (after DENTIST net' st' req)
  ∧ envelopes (V1.outbox (after DENTIST net st req))
    = envelopes (V1.outbox (after DENTIST net' st' req)).
Proof.
  intros Hses Hbox.
  destruct (reading req) as [[sender text]|] eqn:Hread.
  - destruct (turn_outcome DENTIST net st req sender text Hread)
      as (s1 & r1 & T1 & _ & S1 & B1).
    destruct (turn_outcome DENTIST net' st' req sender text Hread)
      as (s2 & r2 & T2 & _ & S2 & B2).
    assert (session_of st' sender = session_of st sender) as E
      by (unfold session_of; by rewrite Hses).
    rewrite E in T2.
    destruct (transition_deterministic _ _ _ _ _ _ _ _ T1 T2) as [-> ->].
    by rewrite S1, S2, B1, B2, Hses, Hbox.
  - unfold after. by rewrite !(unread_outcome _ _ _ _ Hread).
Qed.

(** X11. Whatever deliveries fail along a sequence of requests, the
    sessions at its end and the messages attempted, in their order, are
    the same: a failed delivery is not retried, suppresses no later message
    (the notification recipient is still told of a booking whose
    confirmation to the patient failed) and changes no session. *)
Theorem conversation_independent_of_delivery DENTIST net net' reqs st :
  V1.sessions (deliver_all DENTIST net reqs st) = V1.sessions (deliver_all DENTIST net' reqs st)
  ∧ envelopes (V1.outbox (deliver_all DENTIST net reqs st))
    = envelopes (V1.outbox (deliver_all DENTIST net' reqs st)).
Proof.
  assert (∀ st1 st2,
            V1.sessions st1 = V1.sessions st2 →
            envelopes (V1.outbox st1) = envelopes (V1.outbox st2) →
            V1.sessions (deliver_all DENTIST net reqs st1)
            = V1.sessions (deliver_all DENTIST net' reqs st2)
            ∧ envelopes (V1.outbox (deliver_all DENTIST net reqs st1))
              = envelopes (V1.outbox (deliver_all DENTIST net' reqs st2))) as H.
  { induction reqs as [|req reqs IH]; intros st1 st2 Hses Hbox; [done|].
    cbn. destruct (after_congruent DENTIST net net' st1 st2 req Hses Hbox). by apply IH. }
  by apply H.
Qed.

(** ** Requests that are not read *)

Lemma post_unread net auth_url st req :
  reading2 req = None →
  run (V2.webhook_post net auth_url req) st
  = (Normal (if V2.event req is Some _ then 500 else 200), st).
Proof.
  unfold reading2, V2.webhook_post.
  destruct (V2.event req) as [[sender [|raw|b]]|]; cbn [body from]; try done;
    intros _; by destruct st.
Qed.

(** X12. A request that is not read has no effect.  In revision 1 an event
    without a message, or with a text body that makes reading throw, is
    answered 200 and leaves the sessions and the messages sent as they
    were.  In revision 2 an event without a message is answered 200, a
    text body that is no string and a failing [URL] constructor on the
    link command are answered 500, and in each case nothing is sent and
    the credential store is as it was. *)
Theorem unread_request_has_no_effect DENTIST net st req auth_url st2 req2 :
  (reading req = None → run (V1.webhook_post DENTIST net req) st = (Normal 200, st))
  ∧ (V2.event req2 = None → run (V2.webhook_post net auth_url req2) st2 = (Normal 200, st2))
  ∧ (throws auth_url req2 = true →
     run (V2.webhook_post net auth_url req2) st2 = (Normal 500, st2)).
Proof.
  split_and!.
  - apply unread_outcome.
  - intros H. rewrite (post_unread net auth_url st2 req2); [by rewrite H|].
    unfold reading2. by rewrite H.
  - unfold throws. destruct (V2.event req2) as [[sender [|raw|b]]|] eqn:E;
      cbn [body]; try done.
    + intros H. apply andb_true_iff in H as [Hw Hu].
      rewrite (post_text net auth_url st2 req2 sender raw E), Hw.
      by destruct (auth_url (auth_href req2)).
    + intros _. rewrite (post_unread net auth_url st2 req2); [by rewrite E|].
      unfold reading2. by rewrite E.
Qed.

Lemma unread_request_has_no_effect_witness :
  run (V1.webhook_post None offline (Some {| from := patient; body := body_other true |}))
      at_confirm
  = (Normal 200, at_confirm)
  ∧ run (V2.webhook_post offline (λ _, None) (posted (inbound patient (js "Conectar Google"))))
        boot2
    = (Normal 500, boot2).
Proof.
  split.
  - apply (proj1 (unread_request_has_no_effect None offline at_confirm
                    (Some {| from := patient; body := body_other true |})
                    any_url boot2 (posted None))).
    reflexivity.
  - apply (proj2 (proj2 (unread_request_has_no_effect None offline at_confirm None
                           (λ _, None) boot2
                           (posted (inbound patient (js "Conectar Google")))))).
    vm_compute. reflexivity.
Defined.

(** ** The slot offer and its answer *)

(** X13. The ids the slot offer prints are the ones the choice reads: the
    offer lists, one per line, the printed id and the label of every slot
    of the catalog, and at step [offer_slots] a text that is the printed id
    of a slot chooses that slot: its label is stored, the step becomes
    [confirm] and the confirmation prompt for it is the only reply. *)
Theorem printed_id_selects_slot DENTIST net st req sender text x :
  V1.slot_list = join LF (map (λ y, printed_id y ++ js ") " ++ V1.when y) V1.SLOTS)
  ∧ (reading req = Some (sender, text) →
     V1.step (session_of st sender) = V1.offer_slots →
     x ∈ V1.SLOTS →
     text = printed_id x →
     V1.sessions (after DENTIST net st req) !! sender
     = Some {| V1.step := V1.confirm;
               V1.data := {| V1.name := V1.name (V1.data (session_of st sender));
                             V1.phone := V1.phone (V1.data (session_of st sender));
                             V1.slot := Some (V1.when x) |} |}
     ∧ envelopes (V1.outbox (after DENTIST net st req))
       = envelopes (V1.outbox st) ++ [(sender, confirm_prompt x)]).
Proof.
  split; [reflexivity|]. intros Hread Hs Hx ->.
  assert (test_anchored (js "cancelar") (printed_id x) = false
          ∧ test_anchored (js "agendar") (printed_id x) = false
          ∧ V1.find_slot (Number (printed_id x)) = Some x) as (Hc & Ha & Hf).
  { revert Hx. unfold V1.SLOTS. rewrite !elem_of_cons, elem_of_nil.
    intros [-> | [-> | [-> | []]]]; vm_compute; done. }
  destruct (turn_outcome DENTIST net st req sender _ Hread)
    as (s' & replies & Ht & _ & Hses & Henv).
  rewrite Hses, Henv, lookup_insert_eq. only_rule Ht.
  assert (chosen = x) as -> by congruence. done.
Qed.

Lemma printed_id_selects_slot_witness :
  V1.sessions (after None offline at_offer_slots (inbound patient (js " 3 "))) !! patient
  = Some {| V1.step := V1.confirm;
            V1.data := {| V1.name := V1.name (V1.data (session_of at_offer_slots patient));
                          V1.phone := V1.phone (V1.data (session_of at_offer_slots patient));
                          V1.slot := Some (js "Amanhã 15:00") |} |}.
Proof.
  apply (proj2 (printed_id_selects_slot None offline at_offer_slots
                  (inbound patient (js " 3 ")) patient (trim (js " 3 "))
                  {| V1.slot_id := 3; V1.when := js "Amanhã 15:00" |})).
  - reflexivity.
  - vm_compute. reflexivity.
  - vm_compute. repeat constructor.
  - vm_compute. reflexivity.
Defined.

(** ** Messages without text *)

Lemma trim_blank raw : Forall (λ c, is_white_space c = true) raw → trim raw = [].
Proof.
  intros H. unfold trim.
  assert (trim_start raw = []) as ->; [|reflexivity].
  induction H as [|c raw Hc _ IH]; [reflexivity|]. simpl. by rewrite Hc.
Qed.

(** X14. A message without text (an image, a location), a text body that is
    a falsy value, and a text of white space only are handled as the empty
    text: at step [get_name] each of them stores the empty name and moves
    the session to [get_phone]. *)
Theorem blank_text_is_empty DENTIST net st sender raw b :
  Forall (λ c, is_white_space c = true) raw →
  b ∈ [body_absent; body_other false; body_string raw] →
  run (V1.webhook_post DENTIST net (Some {| from := sender; body := b |})) st
  = run (V1.webhook_post DENTIST net (inbound sender [])) st
  ∧ (V1.step (session_of st sender) = V1.get_name →
     V1.sessions (after DENTIST net st (Some {| from := sender; body := b |})) !! sender
     = Some {| V1.step := V1.get_phone;
               V1.data := {| V1.name := Some [];
                             V1.phone := V1.phone (V1.data (session_of st sender));
                             V1.slot := V1.slot (V1.data (session_of st sender)) |} |}).
Proof.
  intros Hraw Hb.
  assert (reading (Some {| from := sender; body := b |}) = Some (sender, [])) as Hread.
  { apply list_elem_of_In in Hb. destruct Hb as [<- | [<- | [<- | []]]]; cbn [reading body from];
      by rewrite ?(trim_blank raw Hraw). }
  split.
  - apply list_elem_of_In in Hb. destruct Hb as [<- | [<- | [<- | []]]].
    + reflexivity.
    + reflexivity.
    + unfold V1.webhook_post, inbound. cbn [body from V1.inbound_text].
      rewrite (trim_blank raw Hraw). reflexivity.
  - intros Hs.
    destruct (turn_outcome DENTIST net st _ sender [] Hread)
      as (s' & replies & Ht & _ & Hses & _).
    rewrite Hses, lookup_insert_eq.
    assert (test_anchored (js "cancelar") [] = false) as Hc by reflexivity.
    assert (test_anchored (js "agendar") [] = false) as Ha by reflexivity.
    only_rule Ht. done.
Qed.

Lemma blank_text_is_empty_witness :
  V1.sessions (after None offline at_get_name (Some {| from := patient; body := body_absent |}))
    !! patient
  = Some {| V1.step := V1.get_phone;
            V1.data := {| V1.name := Some [];
                          V1.phone := V1.phone (V1.data (session_of at_get_name patient));
                          V1.slot := V1.slot (V1.data (session_of at_get_name patient)) |} |}.
Proof.
  apply (proj2 (blank_text_is_empty None offline at_get_name patient (js "  ") body_absent
                  ltac:(vm_compute; repeat constructor) ltac:(repeat constructor))).
  vm_compute. reflexivity.
Defined.

(** ** Revision 2: the calendar link *)

Lemma test_prefix_app p q t : test_prefix (p ++ q) t = true → test_prefix p t = true.
Proof.
  revert t. induction p as [|a p IH]; intros t; [done|].
  destruct t as [|c t]; simpl; [done|]. rewrite !andb_true_iff. intros [? ?]. eauto.
Qed.

Lemma wants_connect_spec t :
  wants_connect t = true
  ↔ equal_ignoring_case (take (length (js "conectar")) t) (js "conectar")
    ∨ equal_ignoring_case (take (length (js "link google")) t) (js "link google").
Proof.
  rewrite <- !test_prefix_spec. unfold wants_connect. rewrite !orb_true_iff. split.
  - intros [[H | H] | H]; [by left | left | by right].
    apply (test_prefix_app (js "conectar") (js " google")). exact H.
  - intros [H | H]; [by left; left | by right].
Qed.

(** X15. Revision 2 sends the link to connect the calendar exactly to the
    texts that begin (after trimming, in any case) with [conectar] or with
    [link google]; the alternative [conectar google] of the pattern adds
    nothing.  The link is then the only reply, and it is the printed URL
    of [/google/auth] on the host of the request. *)
Theorem link_sent_on_prefix net auth_url st req sender raw url :
  V2.event req = inbound sender raw →
  auth_url (V2.protocol req ++ js "://" ++ interpolate (V2.host req) ++ js "/google/auth")
  = Some url →
  envelopes (V2.outbox (run (V2.webhook_post net auth_url req) st).2)
  = envelopes (V2.outbox st)
    ++ [(sender, js "Para conectar seu Google Agenda, acesse: " ++ url)]
  ↔ equal_ignoring_case (take (length (js "conectar")) (trim raw)) (js "conectar")
    ∨ equal_ignoring_case (take (length (js "link google")) (trim raw)) (js "link google").
Proof.
  intros Hreq Hurl. rewrite <- wants_connect_spec.
  rewrite (post_text _ _ _ _ _ _ Hreq). unfold auth_href. rewrite Hurl.
  destruct (wants_connect (trim raw)); cbn [snd V2.outbox]; rewrite envelopes_attempt.
  - done.
  - split; [|done]. intros H. apply app_inv_head, single_reply in H.
    destruct (test_prefix (js "agendar") (trim raw)); clash H.
Qed.

Lemma link_sent_on_prefix_witness :
  envelopes (V2.outbox (run (V2.webhook_post offline any_url
                               (posted (inbound patient (js " Link Google, por favor")))) boot2).2)
  = envelopes (V2.outbox boot2)
    ++ [(patient, js "Para conectar seu Google Agenda, acesse: "
                  ++ js "https://smilebot.onrender.com/google/auth?dentist_id=default")].
Proof.
  apply (link_sent_on_prefix offline any_url boot2
           (posted (inbound patient (js " Link Google, por favor"))) patient
           (js " Link Google, por favor")).
  - reflexivity.
  - vm_compute. reflexivity.
  - right. vm_compute. reflexivity.
Defined.

(** ** The credential store, beyond one entry *)

Lemma callback_store getToken calendarList_list parsed_dentistId st code state :
  V2.googleTokensStore
    (after_callback getToken calendarList_list parsed_dentistId st code state)
  = match (if V2.truthy code then getToken code else None) with
    | Some tokens =>
      <[V2.callback_dentistId parsed_dentistId state := tokens]> (V2.googleTokensStore st)
    | None => V2.googleTokensStore st
    end
  ∧ V2.outbox (after_callback getToken calendarList_list parsed_dentistId st code state)
    = V2.outbox st.
Proof.
  unfold after_callback, V2.google_callback.
  destruct (V2.truthy code); cbn [negb].
  - repeat (progress (
      unfold run, try_catch, mbind, M_bind, mret, M_ret, modify, await, throw,
        V2.googleTokensStore_set;
      cbn [V2.googleTokensStore V2.outbox fst snd])).
    destruct (getToken code) as [tokens|]; cbn [V2.googleTokensStore V2.outbox fst snd];
      [|done].
    destruct (calendarList_list tokens); done.
  - done.
Qed.

Lemma server_eq (a b : V2.server) :
  V2.googleTokensStore a = V2.googleTokensStore b → V2.outbox a = V2.outbox b → a = b.
Proof. destruct a, b. cbn [V2.googleTokensStore V2.outbox]. by intros -> ->. Qed.

(** X16. The callback touches at most the record of its dentist id, a key
    of whatever type the state carries: every other record is as it was;
    in particular the record of [default] is as it was when the state
    names another truthy value, be it a number, a boolean, an array or an
    object.  No record is ever removed, a dentist id that had no record
    only adds one, and no message is sent.  Without a code the callback
    answers 400 and does not try the exchange: the whole state is as it was
    whatever the exchange would give. *)
Theorem callback_touches_one_record getToken calendarList_list parsed_dentistId st code state :
  (∀ k, k ≠ V2.callback_dentistId parsed_dentistId state →
        V2.googleTokensStore
          (after_callback getToken calendarList_list parsed_dentistId st code state) !! k
        = V2.googleTokensStore st !! k)
  ∧ (∀ v, V2.truthy state = true → parsed_dentistId state = Some v → json_truthy v = true →
          v ≠ j_string (js "default") →
          V2.googleTokensStore
            (after_callback getToken calendarList_list parsed_dentistId st code state)
            !! j_string (js "default")
          = V2.googleTokensStore st !! j_string (js "default"))
  ∧ (∀ k, is_Some (V2.googleTokensStore st !! k) →
          is_Some (V2.googleTokensStore
                     (after_callback getToken calendarList_list parsed_dentistId st code state)
                   !! k))
  ∧ (V2.googleTokensStore st !! V2.callback_dentistId parsed_dentistId state = None →
     V2.googleTokensStore st
     ⊆ V2.googleTokensStore
         (after_callback getToken calendarList_list parsed_dentistId st code state))
  ∧ V2.outbox (after_callback getToken calendarList_list parsed_dentistId st code state)
    = V2.outbox st
  ∧ (V2.truthy code = false →
     run (V2.google_callback getToken calendarList_list parsed_dentistId code state) st
     = (Normal (Send 400 (q_string (js "Código de autorização ausente."))), st)).
Proof.
  destruct (callback_store getToken calendarList_list parsed_dentistId st code state)
    as [Hstore Hbox].
  rewrite Hstore. split_and!.
  - intros k Hk. destruct (if V2.truthy code then getToken code else None); [|done].
    by rewrite lookup_insert_ne.
  - intros v Hstate Hparse Hv Hne.
    rewrite (dentistId_of_state _ _ _ Hstate Hparse Hv).
    destruct (if V2.truthy code then getToken code else None); [|done].
    by rewrite lookup_insert_ne.
  - intros k Hk. destruct (if V2.truthy code then getToken code else None); [|done].
    rewrite lookup_insert. by case_decide.
  - intros Hnew. destruct (if V2.truthy code then getToken code else None); [|done].
    by apply insert_subseteq.
  - exact Hbox.
  - intros Hc. unfold V2.google_callback. rewrite Hc. reflexivity.
Qed.

(** A callback for the dentist numbered 5 after one for [default]: the
    record of [default] stays, and so does every key other than the number;
    a callback with an empty code does nothing. *)
Lemma callback_touches_one_record_witness :
  V2.googleTokensStore
    (after_callback exchange listing_fails parse_numbered
       (after_callback exchange listing_fails no_dentist boot2 (q_string (js "code-1")) q_absent)
       (q_string (js "code-2")) (q_string numbered_state))
    !! j_string (js "default")
  = V2.googleTokensStore
      (after_callback exchange listing_fails no_dentist boot2 (q_string (js "code-1")) q_absent)
      !! j_string (js "default")
  ∧ V2.googleTokensStore
      (after_callback exchange listing_fails parse_numbered
         (after_callback exchange listing_fails no_dentist boot2 (q_string (js "code-1")) q_absent)
         (q_string (js "code-2")) (q_string numbered_state))
      !! j_string (js "5")
    = V2.googleTokensStore
        (after_callback exchange listing_fails no_dentist boot2 (q_string (js "code-1")) q_absent)
        !! j_string (js "5")
  ∧ V2.googleTokensStore
      (after_callback exchange listing_fails no_dentist boot2 (q_string (js "code-1")) q_absent)
    ⊆ V2.googleTokensStore
        (after_callback exchange listing_fails parse_numbered
           (after_callback exchange listing_fails no_dentist boot2 (q_string (js "code-1")) q_absent)
           (q_string (js "code-2")) (q_string numbered_state))
  ∧ run (V2.google_callback exchange listing_fails no_dentist (q_string []) q_absent) boot2
    = (Normal (Send 400 (q_string (js "Código de autorização ausente."))), boot2).
Proof.
  pose proof (callback_touches_one_record exchange listing_fails parse_numbered
                (after_callback exchange listing_fails no_dentist boot2
                   (q_string (js "code-1")) q_absent)
                (q_string (js "code-2")) (q_string numbered_state))
    as (Hother & Hdefault & _ & Hadds & _ & _).
  split_and!.
  - apply (Hdefault (j_number (Q2Qc 5))).
    + reflexivity.
    + vm_compute. reflexivity.
    + vm_compute. reflexivity.
    + discriminate.
  - apply Hother. vm_compute. discriminate.
  - apply Hadds. vm_compute. reflexivity.
  - apply (proj2 (proj2 (proj2 (proj2 (proj2
             (callback_touches_one_record exchange listing_fails no_dentist
                boot2 (q_string []) q_absent)))))).
    reflexivity.
Defined.

(** X17. Callbacks for different dentist ids do not interfere, whatever
    the types of the ids and whatever each exchange and listing gives: in
    either order they leave the same state, and in it each dentist whose
    exchange succeeded has the tokens of their own exchange. *)
Theorem callbacks_for_distinct_dentists_commute
    getToken1 calendarList_list1 parsed_dentistId1
    getToken2 calendarList_list2 parsed_dentistId2
    st code1 state1 code2 state2 :
  V2.callback_dentistId parsed_dentistId1 state1
  ≠ V2.callback_dentistId parsed_dentistId2 state2 →
  after_callback getToken2 calendarList_list2 parsed_dentistId2
    (after_callback getToken1 calendarList_list1 parsed_dentistId1 st code1 state1)
    code2 state2
  = after_callback getToken1 calendarList_list1 parsed_dentistId1
      (after_callback getToken2 calendarList_list2 parsed_dentistId2 st code2 state2)
      code1 state1
  ∧ (∀ tokens1, V2.truthy code1 = true → getToken1 code1 = Some tokens1 →
       V2.googleTokensStore
         (after_callback getToken2 calendarList_list2 parsed_dentistId2
            (after_callback getToken1 calendarList_list1 parsed_dentistId1 st code1 state1)
            code2 state2)
         !! V2.callback_dentistId parsed_dentistId1 state1
       = Some tokens1)
  ∧ (∀ tokens2, V2.truthy code2 = true → getToken2 code2 = Some tokens2 →
       V2.googleTokensStore
         (after_callback getToken2 calendarList_list2 parsed_dentistId2
            (after_callback getToken1 calendarList_list1 parsed_dentistId1 st code1 state1)
            code2 state2)
         !! V2.callback_dentistId parsed_dentistId2 state2
       = Some tokens2).
Proof.
  intros Hne. split_and!.
  - apply server_eq.
    + rewrite !(proj1 (callback_store _ _ _ _ _ _)).
      destruct (if V2.truthy code1 then getToken1 code1 else None),
               (if V2.truthy code2 then getToken2 code2 else None); try done.
      by rewrite insert_insert_ne.
    + by rewrite !(proj2 (callback_store _ _ _ _ _ _)).
  - intros tokens1 Hcode Htok.
    rewrite !(proj1 (callback_store _ _ _ _ _ _)), Hcode, Htok.
    destruct (if V2.truthy code2 then getToken2 code2 else None).
    + rewrite lookup_insert_ne by done. apply lookup_insert_eq.
    + apply lookup_insert_eq.
  - intros tokens2 Hcode Htok.
    rewrite !(proj1 (callback_store _ _ _ _ _ _)), Hcode, Htok.
    apply lookup_insert_eq.
Qed.

(** The dentist numbered 5 and the dentist [default]: two keys of the
    store, whichever callback comes first. *)
Lemma callbacks_for_distinct_dentists_commute_witness :
  after_callback exchange listing_fails no_dentist
    (after_callback exchange listing_fails parse_numbered boot2
       (q_string (js "code-1")) (q_string numbered_state))
    (q_string (js "code-2")) q_absent
  = after_callback exchange listing_fails parse_numbered
      (after_callback exchange listing_fails no_dentist boot2
         (q_string (js "code-2")) q_absent)
      (q_string (js "code-1")) (q_string numbered_state).
Proof.
  apply (callbacks_for_distinct_dentists_commute
           exchange listing_fails parse_numbered exchange listing_fails no_dentist boot2
           (q_string (js "code-1")) (q_string numbered_state) (q_string (js "code-2")) q_absent).
  vm_compute. discriminate.
Defined.

(** ** From the authorization request to the callback *)

(** X18. The dentist id of [/google/auth] names the record the callback
    writes.  Revision 2 redirects to the URL generated for the state
    [JSON.stringify({ dentistId })], or answers 500 when generating it
    throws, and leaves the process state alone; when the provider hands
    that state back with a code whose exchange succeeds, and the state
    parses back to the dentist id, the tokens are stored under the id given
    to [/google/auth], or under [default] when none (or an empty one) was
    given. *)
Theorem auth_state_names_the_record JSON_stringify generateAuthUrl getToken calendarList_list
    parsed_dentistId st dentist_id d code tokens :
  run (V2.google_auth JSON_stringify generateAuthUrl dentist_id) st
  = (Normal match generateAuthUrl (V2.auth_state JSON_stringify dentist_id) with
            | Some url => Redirect url
            | None => AuthFailed 500 (js "Falha ao iniciar OAuth.")
            end, st)
  ∧ (dentist_or_default dentist_id = q_string d →
     V2.auth_state JSON_stringify dentist_id ≠ [] →
     parsed_dentistId (q_string (V2.auth_state JSON_stringify dentist_id)) = Some (j_string d) →
     V2.truthy code = true →
     getToken code = Some tokens →
     V2.googleTokensStore
       (after_callback getToken calendarList_list parsed_dentistId st code
          (q_string (V2.auth_state JSON_stringify dentist_id))) !! j_string d
     = Some tokens
     ∧ (dentist_id = q_absent ∨ dentist_id = q_string [] → d = js "default")).
Proof.
  split.
  - unfold V2.google_auth, run, try_catch, mbind, M_bind, mret, M_ret, await.
    by destruct (generateAuthUrl _).
  - intros Hd Hne Hparse Hcode Htok.
    assert (d ≠ []) as Hd'.
    { destruct dentist_id as [|[|c r]|]; cbn in Hd; try discriminate Hd;
        injection Hd as <-; [by vm_compute | by vm_compute | done]. }
    split.
    + rewrite (proj1 (callback_store _ _ _ _ _ _)), Hcode, Htok.
      assert (V2.callback_dentistId parsed_dentistId
                (q_string (V2.auth_state JSON_stringify dentist_id)) = j_string d) as ->.
      { apply dentistId_of_state; [|done|by destruct d].
        destruct (V2.auth_state JSON_stringify dentist_id); done. }
      apply lookup_insert_eq.
    + intros [-> | ->]; unfold dentist_or_default in Hd; by injection Hd as <-.
Qed.

Lemma auth_state_names_the_record_witness :
  V2.googleTokensStore
    (after_callback exchange listing_fails parse_sample boot2 (q_string (js "code-1"))
       (q_string (V2.auth_state stringify_sample (q_string (js "clinica-1")))))
    !! j_string (js "clinica-1")
  = Some first_tokens.
Proof.
  apply (proj2 (auth_state_names_the_record stringify_sample any_url exchange listing_fails
                  parse_sample boot2 (q_string (js "clinica-1")) (js "clinica-1")
                  (q_string (js "code-1")) first_tokens)).
  - vm_compute. reflexivity.
  - vm_compute. discriminate.
  - vm_compute. reflexivity.
  - reflexivity.
  - vm_compute. reflexivity.
Defined.

(** Revision 1's routes of the authorization flow keep nothing. *)
Lemma first_revision_auth generateAuthUrl st dentist_id :
  run (V1.google_auth generateAuthUrl dentist_id) st
  = (match generateAuthUrl (dentist_or_default dentist_id) with
     | Some url => Normal (Redirect url)
     | None => Throw
     end, st).
Proof.
  unfold V1.google_auth, run, mbind, M_bind, mret, M_ret, await.
  by destruct (generateAuthUrl _).
Qed.

(** ** Revision 2: the default reply *)

Lemma post_read net auth_url st req sender text :
  reading2 req = Some (sender, text) →
  run (V2.webhook_post net auth_url req) st
  = if wants_connect text then
      match auth_url (auth_href req) with
      | Some url =>
        (Normal 200,
         {| V2.googleTokensStore := V2.googleTokensStore st;
            V2.outbox := attempt net (V2.outbox st) sender (connect_reply url) |})
      | None => (Normal 500, st)
      end
    else
      (Normal 200,
       {| V2.googleTokensStore := V2.googleTokensStore st;
          V2.outbox := attempt net (V2.outbox st) sender
                         (if test_prefix (js "agendar") text
                          then schedule_reply else default_reply) |}).
Proof.
  unfold reading2. destruct (V2.event req) as [[from0 [|raw|b]]|] eqn:E;
    cbn [body from]; try done; intros [= <- <-].
  - unfold V2.webhook_post. rewrite E. destruct st. vm_compute. done.
  - by apply post_text.
Qed.

(** X19. Revision 2 sends its default reply exactly to the messages it
    reads whose text (empty for a message without text) begins with none
    of [conectar], [link google] and [agendar]; it is then the only
    reply. *)
Theorem default_reply_otherwise net auth_url st req sender text :
  reading2 req = Some (sender, text) →
  envelopes (V2.outbox (run (V2.webhook_post net auth_url req) st).2)
  = envelopes (V2.outbox st) ++ [(sender, default_reply)]
  ↔ ¬ equal_ignoring_case (take (length (js "conectar")) text) (js "conectar")
    ∧ ¬ equal_ignoring_case (take (length (js "link google")) text) (js "link google")
    ∧ ¬ equal_ignoring_case (take (length (js "agendar")) text) (js "agendar").
Proof.
  intros Hread. rewrite (post_read _ _ _ _ _ _ Hread).
  pose proof (wants_connect_spec text) as Hw.
  rewrite <- (test_prefix_spec (js "agendar")).
  destruct (wants_connect text).
  - split; [|intros (H1 & H2 & _); destruct (proj1 Hw eq_refl); done].
    destruct (auth_url _); cbn [snd V2.outbox].
    + rewrite envelopes_attempt. intros H. apply app_inv_head, single_reply in H. clash H.
    + intros H. apply (f_equal length) in H. rewrite length_app in H. simpl in H. lia.
  - cbn [snd V2.outbox]. rewrite envelopes_attempt.
    destruct (test_prefix (js "agendar") text).
    + split; [|intros (_ & _ & H); by destruct H].
      intros H. apply app_inv_head, single_reply in H. clash H.
    + split; [|done]. intros _. split_and!; [| |done].
      * intros H. assert (false = true) by (apply Hw; by left). done.
      * intros H. assert (false = true) by (apply Hw; by right). done.
Qed.

Lemma default_reply_otherwise_witness :
  envelopes (V2.outbox (run (V2.webhook_post offline any_url
                               (posted (Some {| from := patient; body := body_absent |})))
                            boot2).2)
  = envelopes (V2.outbox boot2) ++ [(patient, default_reply)].
Proof.
  apply (default_reply_otherwise offline any_url boot2
           (posted (Some {| from := patient; body := body_absent |})) patient []).
  - reflexivity.
  - split_and!; vm_compute; discriminate.
Defined.
